(** * Knowledge-base query / session / ingestion lifecycle

    A shallow embedding of the Lambda handlers of the just-in-time
    knowledge base (QueryKnowledgeBase.py, CheckKnowledgeBaseStatus.py,
    CleanupKnowledgeBase.py, common_utils.py) and the properties that the
    specification states about them.

    Python values are a small JSON-like tree, DynamoDB items are finite maps
    from attribute names to values, and every call that leaves the process
    (DynamoDB, Bedrock, the clock, the UUID generator) is an operation of a
    small monad that records the call together with its outcome.  The
    outcomes themselves are supplied by a [Services] record, so every
    theorem below is quantified over all behaviours of the collaborators.
    Logging, tracing and metrics are not modelled, and neither are the CORS
    headers added by [create_response]. *)

From stdpp Require Import gmap strings list.
From Stdlib Require Import ZArith Ascii.

Set Warnings "-register-all".
Local Open Scope Z_scope.

(** ** Python values *)

Inductive value :=
| VNone
| VBool (b : bool)
| VInt (n : Z)
| VStr (s : string)
| VList (l : list value)
| VDict (d : gmap string value).

(** A DynamoDB item, and any other top-level Python [dict]. *)
Abbreviation item := (gmap string value).

(** Python truthiness: [None], [False], [0], [''], [[]] and [{}] are falsy. *)
Definition truthy (v : value) : bool :=
  match v with
  | VNone => false
  | VBool b => b
  | VInt n => negb (n =? 0)
  | VStr s => negb (String.eqb s EmptyString)
  | VList l => match l with [] => false | _ :: _ => true end
  | VDict d => negb (Nat.eqb (size d) 0)
  end.

(** [a or b]. *)
Definition py_or (a b : value) : value := if truthy a then a else b.

(** [d.get(k)]: a missing key reads as [None]. *)
Definition dict_get (d : item) (k : string) : value := default VNone (d !! k).

(** [v == s] for a Python [str] [s]: only an equal [str] compares equal. *)
Definition eq_str (v : value) (s : string) : bool :=
  match v with VStr s' => String.eqb s' s | _ => false end.

(** [needle in hay] on strings. *)
Fixpoint str_prefix (p s : string) : bool :=
  match p, s with
  | EmptyString, _ => true
  | String a p', String b s' => Ascii.eqb a b && str_prefix p' s'
  | String _ _, EmptyString => false
  end.

Fixpoint str_in (needle hay : string) : bool :=
  str_prefix needle hay ||
  match hay with
  | EmptyString => false
  | String _ hay' => str_in needle hay'
  end.

(** [s.endswith(suffix)]. *)
Fixpoint str_endswith (s suffix : string) : bool :=
  String.eqb s suffix ||
  match s with
  | EmptyString => false
  | String _ s' => str_endswith s' suffix
  end.

(** A Python [str] is represented by its UTF-8 encoding.  [str.strip()]
    removes the characters for which [str.isspace()] holds: U+0009 to
    U+000D, U+001C to U+0020, U+0085, U+00A0, U+1680, U+2000 to U+200A,
    U+2028, U+2029, U+202F, U+205F and U+3000.  The three functions below
    recognise their encodings of one, two and three bytes. *)
Definition is_space (c : ascii) : bool :=
  let n := nat_of_ascii c in
  ((9 <=? n) && (n <=? 13) || (28 <=? n) && (n <=? 32))%nat.

Definition is_space2 (c1 c2 : ascii) : bool :=
  let n1 := nat_of_ascii c1 in
  let n2 := nat_of_ascii c2 in
  ((n1 =? 194) && ((n2 =? 133) || (n2 =? 160)))%nat.

Definition is_space3 (c1 c2 c3 : ascii) : bool :=
  let n1 := nat_of_ascii c1 in
  let n2 := nat_of_ascii c2 in
  let n3 := nat_of_ascii c3 in
  ((n1 =? 225) && (n2 =? 154) && (n3 =? 128)
   || (n1 =? 226) && (n2 =? 128)
      && ((128 <=? n3) && (n3 <=? 138) || (n3 =? 168) || (n3 =? 169) || (n3 =? 175))
   || (n1 =? 226) && (n2 =? 129) && (n3 =? 159)
   || (n1 =? 227) && (n2 =? 128) && (n3 =? 128))%nat.

(** Every character of [s] is white space. *)
Fixpoint blank (s : string) : bool :=
  match s with
  | EmptyString => true
  | String c1 s1 =>
      if is_space c1 then blank s1
      else
        match s1 with
        | EmptyString => false
        | String c2 s2 =>
            if is_space2 c1 c2 then blank s2
            else
              match s2 with
              | EmptyString => false
              | String c3 s3 => is_space3 c1 c2 c3 && blank s3
              end
        end
  end.

(** Truthiness of [s.strip()]: some character is not white space. *)
Definition strip_nonempty (s : string) : bool := negb (blank s).

(** ** Exceptions and results *)

(** [ClientError] carries the optional [Error.Code] and [Error.Message] of
    its response; the other constructors are the built-in exception classes
    the handlers can meet. *)
Inductive exn :=
| ClientError (code message : option string)
| KeyError (key : string)
| TypeError
| ValueError (msg : string)
| AttributeError
| OtherException (name : string).

Inductive Result (A : Type) :=
| Ok (a : A)
| Raise (e : exn).
Arguments Ok {A} a.
Arguments Raise {A} e.

(** ** Shapes of the collaborators' requests and responses *)

(** Retrieval filter of the vector search configuration. *)
Inductive Filter :=
| FEquals (key : string) (v : value)
| FIn (key : string) (vs : list value)
| FAndAll (fs : list Filter).

(** Keyword arguments of [retrieve_and_generate]; [rp_sessionId] is the
    optional ['sessionId'] key of the dictionary. *)
Record RetrieveParams := {
  rp_input_text : value;
  rp_type : string;
  rp_knowledgeBaseId : string;
  rp_modelArn : string;
  rp_numberOfResults : Z;
  rp_filter : Filter;
  rp_sessionId : option string
}.

(** [retrieve_params.pop('sessionId')]. *)
Definition pop_sessionId (p : RetrieveParams) : RetrieveParams :=
  {| rp_input_text := rp_input_text p;
     rp_type := rp_type p;
     rp_knowledgeBaseId := rp_knowledgeBaseId p;
     rp_modelArn := rp_modelArn p;
     rp_numberOfResults := rp_numberOfResults p;
     rp_filter := rp_filter p;
     rp_sessionId := None |}.

Record Reference := {
  ref_metadata : option item;
  ref_content : option item
}.

Record Citation := {
  retrievedReferences : option (list Reference)
}.

(** Response of [retrieve_and_generate]. *)
Record Response := {
  resp_sessionId : option string;
  resp_output : option item;
  resp_citations : option (list Citation)
}.

(** Document handed to [ingest_knowledge_base_documents]. *)
Record Document := {
  doc_dataSourceType : string;
  doc_id : value;
  doc_uri : string;
  doc_sourceType : string;
  doc_metadataType : string;
  doc_inlineAttributes : list (string * value)
}.

(** The store's answer to a paginated query: it fails, or yields a last
    page, or yields a page with a [LastEvaluatedKey] and the answer to the
    continuation.  [Items] may be absent from a page. *)
Inductive Pages :=
| PFail (e : exn)
| PLast (items : option (list item))
| PMore (items : option (list item)) (lek : item) (rest : Pages).

(** [response.get('Items')]. *)
Definition page_Items (pg : Pages) : option (list item) :=
  match pg with
  | PFail _ => None
  | PLast items => items
  | PMore items _ _ => items
  end.

(** [response.get('Items', [])]. *)
Definition page_items (pg : Pages) : list item := default [] (page_Items pg).

(** A request buffered by a batch writer: [{'PutRequest': {'Item': it}}] or
    [{'DeleteRequest': {'Key': key}}]. *)
Inductive BatchRequest :=
| PutRequest (it : item)
| DeleteRequest (key : item).

(** Calls that leave the process. *)
Inductive Call :=
| CTime (t : Z)
| CUuid (u : string)
| CQuery (table index : string) (cond : list (string * value))
         (scan_forward : option bool) (start : option item)
| CPut (table : option string) (it : item)
| CBatchWrite (table : string) (requests : list BatchRequest)
| CIngest (kb ds : option string) (token : string) (doc : Document)
| CDeleteDoc (kb ds : string) (token : string) (file_id : value)
| CRetrieve (p : RetrieveParams).

(** A call with its outcome: [true] when it returned, [false] when it raised. *)
Abbreviation History := (list (Call * bool)).

(** Behaviour of the collaborators, each answer depending on the calls made
    so far. *)
Record Services := {
  sv_time : History -> Z;
  sv_uuid : History -> string;
  sv_query : History -> string -> string -> list (string * value) -> Pages;
  sv_write : History -> Call -> option exn;
  sv_retrieve : History -> RetrieveParams -> Result Response
}.

(** Library functions of the Python runtime that the handlers call. *)
Record Runtime := {
  json_loads : string -> option value;
  int_of_str : string -> option Z;
  str_of : value -> string
}.

(** Environment variables of the deployment. *)
Record Env := {
  KNOWLEDGE_BASE_ID : option string;
  DATA_SOURCE_ID : option string;
  PROJECT_FILES_TABLE : option string;
  KNOWLEDGE_BASE_FILES_TABLE : option string;
  CHAT_HISTORY_TABLE : option string;
  TENANTS : option string
}.

(** API Gateway event. [ev_body] is [None] when the key is absent and
    [Some None] when it is [null]. *)
Record Event := {
  ev_httpMethod : option string;
  ev_path : option string;
  ev_claims : option (gmap string string);
  ev_body : option (option string);
  ev_queryStringParameters : option (gmap string string);
  ev_pathParameters_id : option string
}.

(** [event.get('body', '{}')]. *)
Definition event_body (event : Event) : option string :=
  match ev_body event with
  | None => Some "{}"
  | Some b => b
  end.

(** Body given to [create_response]. *)
Inductive Body :=
| BEmpty
| BError (msg : string)
| BErrorExn (pre : string) (e : exn)
| BQueryResult (query : value) (results : Response) (fileIds : list value)
               (projectId : value) (tenantId userId : string)
| BMessages (messages : list item) (count : nat)
| BMessage (msg : string)
| BStatus (itemStatus message : string).

Record HttpResponse := {
  statusCode : Z;
  body : Body
}.

(** DynamoDB stream record. *)
Record UserIdentity := {
  ui_type : option string;
  ui_principalId : option string
}.

Record StreamData := {
  sd_Keys : option (gmap string item);
  sd_OldImage : option (gmap string item)
}.

Record StreamRecord := {
  eventName : option string;
  userIdentity : option UserIdentity;
  dynamodb : option StreamData
}.

Record StreamEvent := {
  Records : option (list StreamRecord)
}.

Inductive ReaperBody :=
| RError (msg : string)
| RErrorExn (pre : string) (e : exn)
| RNoRecords
| RProcessed (processed_count error_count : nat).

Record ReaperResponse := {
  r_statusCode : Z;
  r_body : ReaperBody
}.

(** ** The monad of handler code *)

(** A computation reads the calls made so far and returns a result with the
    calls it made itself.  Calls made before an exception stay recorded. *)
Definition M (A : Type) : Type := History -> Result A * History.

Definition ret {A} (a : A) : M A := fun _ => (Ok a, []).

Definition raise {A} (e : exn) : M A := fun _ => (Raise e, []).

Definition bind {A B} (m : M A) (k : A -> M B) : M B :=
  fun h =>
    let '(r, es) := m h in
    match r with
    | Ok a => let '(r', es') := k a (h ++ es) in (r', es ++ es')
    | Raise e => (Raise e, es)
    end.

(** [try: m except Exception as e: handler e]; the handler re-raises the
    exceptions that its [except] clause does not name. *)
Definition try_except {A} (m : M A) (handler : exn -> M A) : M A :=
  fun h =>
    let '(r, es) := m h in
    match r with
    | Ok a => (Ok a, es)
    | Raise e => let '(r', es') := handler e (h ++ es) in (r', es ++ es')
    end.

Notation "'let*' x ':=' m 'in' k" := (bind m (fun x => k))
  (at level 10, x name, m at level 200, k at level 200).
Notation "m ';;' k" := (bind m (fun _ => k))
  (at level 100, k at level 200, right associativity).

Definition lift_result {A} (r : Result A) : M A := fun _ => (r, []).

Fixpoint for_each {A} (l : list A) (f : A -> M unit) : M unit :=
  match l with
  | [] => ret tt
  | x :: l' => f x ;; for_each l' f
  end.

(** [d[k]]. *)
Definition getitem (d : item) (k : string) : Result value :=
  match d !! k with
  | Some v => Ok v
  | None => Raise (KeyError k)
  end.

(** [d[k]] for an entry that may be absent, as in [os.environ[k]] and
    [response['sessionId']]: a missing key is a [KeyError]. *)
Definition required (k : string) (v : option string) : Result string :=
  match v with
  | Some s => Ok s
  | None => Raise (KeyError k)
  end.

(** [if not v] on the result of [os.environ.get]. *)
Definition configured (v : option string) : option string :=
  match v with
  | Some s => if String.eqb s EmptyString then None else Some s
  | None => None
  end.

(** [dynamodb.name] on the object that common_utils.py binds to [dynamodb],
    the service resource [resource('dynamodb')].  The resource offers its
    actions, the [tables] collection, the [Table] sub-resource and [meta];
    the condition builders [Key] and [Attr] belong to the module
    [boto3.dynamodb.conditions], which is not an attribute of the resource. *)
Definition resource_attribute (name : string) : Result unit :=
  if bool_decide (name ∈ ["Table"; "tables"; "batch_get_item"; "batch_write_item";
                          "create_table"; "get_available_subresources"; "meta"])
  then Ok tt
  else Raise AttributeError.

(** ** Calls to the collaborators *)

Section Calls.
Variable svc : Services.

  (** [int(time.time())]. *)
Definition int_time : M Z :=
    fun h => let t := sv_time svc h in (Ok t, [(CTime t, true)]).

  (** [str(uuid.uuid4())]. *)
Definition uuid4 : M string :=
    fun h => let u := sv_uuid svc h in (Ok u, [(CUuid u, true)]).

  (** One request of a paginated query whose answer is [pg]. *)
Definition query_page (table index : string) (cond : list (string * value))
      (scan_forward : option bool) (start : option item) (pg : Pages) : M Pages :=
    fun _ =>
      match pg with
      | PFail e => (Raise e, [(CQuery table index cond scan_forward start, false)])
      | _ => (Ok pg, [(CQuery table index cond scan_forward start, true)])
      end.

  (** [table.query(IndexName=index, KeyConditionExpression=cond, ...)]
      without [ExclusiveStartKey]. *)
Definition table_query (table index : string) (cond : list (string * value))
      (scan_forward : option bool) : M Pages :=
    fun h => query_page table index cond scan_forward None
               (sv_query svc h table index cond) h.

  (** A call that returns nothing of interest: it succeeds or raises. *)
Definition write (c : Call) : M unit :=
    fun h =>
      match sv_write svc h c with
      | None => (Ok tt, [(c, true)])
      | Some e => (Raise e, [(c, false)])
      end.

  (** [bedrock_agent_runtime.retrieve_and_generate] with keyword arguments [p]. *)
Definition retrieve_and_generate (p : RetrieveParams) : M Response :=
    fun h =>
      match sv_retrieve svc h p with
      | Ok r => (Ok r, [(CRetrieve p, true)])
      | Raise e => (Raise e, [(CRetrieve p, false)])
      end.

(** *** The batch writer

      [table.batch_writer()] of boto3 buffers the requests of [put_item] and
      [delete_item].  As soon as 25 requests are buffered it sends the first
      25 with one [BatchWriteItem] call, and when the [with] block is left,
      normally or by an exception, it sends what is left in the buffer.  The
      store is taken to process every request of a call that it accepts:
      the [UnprocessedItems] of an answer, which the writer would buffer
      again, are not modelled. *)

  (** Code inside the [with] block: it has the buffer of the writer and
      leaves it behind, also when it raises. *)
Definition W (A : Type) : Type :=
    list BatchRequest -> History -> Result A * list BatchRequest * History.

Definition wret {A} (a : A) : W A := fun buffer _ => (Ok a, buffer, []).

Definition wlift {A} (r : Result A) : W A := fun buffer _ => (r, buffer, []).

Definition wbind {A B} (m : W A) (k : A -> W B) : W B :=
    fun buffer h =>
      let '(r, buffer1, es) := m buffer h in
      match r with
      | Ok a => let '(r', buffer2, es') := k a buffer1 (h ++ es) in (r', buffer2, es ++ es')
      | Raise e => (Raise e, buffer1, es)
      end.

Fixpoint wfor_each {A} (l : list A) (f : A -> W unit) : W unit :=
    match l with
    | [] => wret tt
    | x :: l' => wbind (f x) (fun _ => wfor_each l' f)
    end.

  (** [_flush]: the first 25 requests leave the buffer and are sent. *)
Definition flush (table : string) : W unit :=
    fun buffer h =>
      let items_to_send := take 25 buffer in
      let rest := drop 25 buffer in
      let '(r, es) := write (CBatchWrite table items_to_send) h in
      (r, rest, es).

  (** [_add_request_and_process]: buffer the request, and flush when the
      buffer has reached 25 requests. *)
Definition add_request (table : string) (request : BatchRequest) : W unit :=
    fun buffer h =>
      let buffer := buffer ++ [request] in
      if (25 <=? length buffer)%nat then flush table buffer h
      else (Ok tt, buffer, []).

  (** [batch.put_item(Item=it)] and [batch.delete_item(Key=key)]. *)
Definition batch_put_item (table : string) (it : item) : W unit :=
    add_request table (PutRequest it).

Definition batch_delete_item (table : string) (key : item) : W unit :=
    add_request table (DeleteRequest key).

  (** [while self._items_buffer: self._flush()]; a flush shortens the
      buffer, so its length bounds the number of rounds. *)
Fixpoint drain (rounds : nat) (table : string) : W unit :=
    fun buffer h =>
      match rounds, buffer with
      | S rounds', _ :: _ => wbind (flush table) (fun _ => drain rounds' table) buffer h
      | _, _ => (Ok tt, buffer, [])
      end.

  (** [with table.batch_writer() as batch: body].  [__exit__] drains the
      buffer whether the body raised or not; an exception of the drain is
      the one that leaves the block, otherwise the body's own. *)
Definition batch_writer (table : string) (body : W unit) : M unit :=
    fun h =>
      let '(r, buffer, es) := body [] h in
      let '(r', _, es') := drain (length buffer) table buffer (h ++ es) in
      (match r' with
       | Raise e => Raise e
       | Ok _ => r
       end, es ++ es').
End Calls.

(** ** common_utils.py *)

Module common_utils.
Section Code.
Variable svc : Services.
Variable env : Env.

Definition create_response (event : Event) (status_code : Z) (b : Body)
      : HttpResponse :=
    {| statusCode := status_code; body := b |}.

Definition handle_options_request (event : Event) : option HttpResponse :=
    match ev_httpMethod event with
    | Some m => if String.eqb m "OPTIONS"
                then Some (create_response event 200 BEmpty) else None
    | None => None
    end.

Definition get_user_tenant_from_claims (event : Event)
      : Result (string * string) :=
    match ev_claims event with
    | None => Raise (KeyError "claims")
    | Some claims =>
        match claims !! "sub" with
        | None => Raise (KeyError "sub")
        | Some user_id =>
            match claims !! "custom:tenantId" with
            | None => Raise (KeyError "custom:tenantId")
            | Some tenant_id => Ok (user_id, tenant_id)
            end
        end
    end.

  (** [for item in items: file_ids.append(item['id'])]. *)
Fixpoint item_ids (items : list item) : Result (list value) :=
    match items with
    | [] => Ok []
    | it :: items' =>
        match getitem it "id" with
        | Raise e => Raise e
        | Ok i =>
            match item_ids items' with
            | Raise e => Raise e
            | Ok ids => Ok (i :: ids)
            end
        end
    end.

Definition get_file_ids (tenant_id : string) (project_id : value)
      : M (list value) :=
    let* table := lift_result (required "PROJECT_FILES_TABLE" (PROJECT_FILES_TABLE env)) in
    let* response :=
      table_query svc table "tenantId-projectId-index"
        [("tenantId", VStr tenant_id); ("projectId", project_id)] None in
    match page_Items response with
    | None => raise TypeError
    | Some items => lift_result (item_ids items)
    end.

Definition batch_delete_items (table_name : string) (items : list item)
      : M bool :=
    try_except
      (batch_writer svc table_name
         (wfor_each items (fun it =>
            wbind (wlift (getitem it "tenantId")) (fun tenantId =>
            wbind (wlift (getitem it "id")) (fun id =>
            batch_delete_item svc table_name
              (<["tenantId" := tenantId]> (<["id" := id]> ∅)))))) ;;
       ret true)
      (fun _ => ret false).

Definition handle_client_error (e : exn) (event : Event) : HttpResponse :=
    create_response event 500 (BError "Internal server error").

Definition handle_general_exception (e : exn) (event : Event) : HttpResponse :=
    create_response event 500 (BError "Internal server error").

  (** The two [except] clauses that close every API handler. *)
Definition handle_exceptions (event : Event) (e : exn) : M HttpResponse :=
    match e with
    | ClientError _ _ => ret (handle_client_error e event)
    | _ => ret (handle_general_exception e event)
    end.
End Code.
End common_utils.

(** ** QueryKnowledgeBase.py *)

Module QueryKnowledgeBase.
Import common_utils.
Section Code.
Variable rt : Runtime.
Variable svc : Services.
Variable env : Env.

  (** [json.loads(text)]; [None] in place of the text is a [TypeError]. *)
Definition py_json_loads (text : option string) : Result value :=
    match text with
    | None => Raise TypeError
    | Some s =>
        match json_loads rt s with
        | Some v => Ok v
        | None => Raise (ValueError "JSONDecodeError")
        end
    end.

  (** The receiver of [body.get]. *)
Definition as_dict (v : value) : Result item :=
    match v with
    | VDict d => Ok d
    | _ => Raise AttributeError
    end.

  (** The item built by [save_chat_message]; ['sources'] is only set for a
      non-empty list. *)
Definition chat_item (id session_id tenant_id user_id : string)
      (project_id : value) (message_type : string) (content : value)
      (timestamp : Z) (sources : option (list value)) : item :=
    let it : item :=
      <["id" := VStr id]> (
      <["sessionId" := VStr session_id]> (
      <["tenantId" := VStr tenant_id]> (
      <["userId" := VStr user_id]> (
      <["projectId" := project_id]> (
      <["type" := VStr message_type]> (
      <["content" := content]> (
      <["timestamp" := VInt timestamp]> ∅))))))) in
    match sources with
    | Some (s :: ss) => <["sources" := VList (s :: ss)]> it
    | _ => it
    end.

Definition save_chat_message (session_id user_id tenant_id : string)
      (project_id : value) (message_type : string) (content : value)
      (timestamp : Z) (sources : option (list value)) : M bool :=
    let* table := lift_result (required "CHAT_HISTORY_TABLE" (CHAT_HISTORY_TABLE env)) in
    let* id := uuid4 svc in
    let it := chat_item id session_id tenant_id user_id project_id
                message_type content timestamp sources in
    try_except
      (write svc (CPut (Some table) it) ;; ret true)
      (fun _ => ret false).

  (** The [while 'LastEvaluatedKey' in response] loop. *)
Fixpoint drain_pages (table index : string) (cond : list (string * value))
      (response : Pages) (messages : list item) : M (list item) :=
    match response with
    | PMore _ lek rest =>
        query_page table index cond (Some true) (Some lek) rest ;;
        drain_pages table index cond rest (messages ++ page_items rest)
    | _ => ret messages
    end.

  (** The body of the [try] block of [get_chat_history_by_tenant_user].
      The key condition is written [dynamodb.conditions.Key(...)], where
      [dynamodb] is the service resource imported from common_utils.py: the
      attribute is looked up while the arguments of the first [query] are
      evaluated, before the call is made. *)
Definition scan_chat_history (table tenant_id user_id : string) : M (list item) :=
    lift_result (resource_attribute "conditions") ;;
    let cond := [("tenantId", VStr tenant_id); ("userId", VStr user_id)] in
    let* response := table_query svc table "tenantId-userId-index" cond (Some true) in
    let messages := page_items response in
    drain_pages table "tenantId-userId-index" cond response messages.

Definition get_chat_history_by_tenant_user (tenant_id user_id : string)
      : M (list item) :=
    let* table := lift_result (required "CHAT_HISTORY_TABLE" (CHAT_HISTORY_TABLE env)) in
    try_except
      (scan_chat_history table tenant_id user_id)
      (fun _ => ret []).

Definition delete_chat_session (tenant_id project_id user_id : string)
      : M bool :=
    try_except
      (let* messages := get_chat_history_by_tenant_user tenant_id user_id in
       let* table := lift_result (required "CHAT_HISTORY_TABLE" (CHAT_HISTORY_TABLE env)) in
       let* success := batch_delete_items svc table messages in
       if success then ret true else ret false)
      (fun _ => ret false).

  (** [old_session_id] is typed as a string: the only caller passes the
      session id that it put into the call parameters. *)
Definition update_chat_history_session_id (user_id tenant_id : string)
      (results_id : value) (old_session_id : string) (new_session_id : value)
      : M bool :=
    try_except
      (let* table := lift_result (required "CHAT_HISTORY_TABLE" (CHAT_HISTORY_TABLE env)) in
       let* messages := get_chat_history_by_tenant_user tenant_id user_id in
       let messages_to_update :=
         filter (fun msg : item => eq_str (dict_get msg "sessionId") old_session_id = true)
                messages in
       match messages_to_update with
       | [] => ret true
       | _ :: _ =>
           batch_writer svc table
             (wfor_each messages_to_update (fun msg =>
                let updated_item : item := <["sessionId" := new_session_id]> msg in
                batch_put_item svc table updated_item)) ;;
           ret true
       end)
      (fun _ => ret false).

Definition is_invalid_session (error_code error_message : string) : bool :=
    String.eqb error_code "ValidationException"
    && str_in "is not valid" error_message
    && str_in "Session with Id" error_message.

Definition perform_retrieve_and_generate (retrieve_params : RetrieveParams)
      : M (Response * bool) :=
    try_except
      (let* response := retrieve_and_generate svc retrieve_params in
       ret (response, false))
      (fun e =>
         match e with
         | ClientError code message =>
             let error_code := default "Unknown" code in
             let error_message := default EmptyString message in
             if is_invalid_session error_code error_message then
               match rp_sessionId retrieve_params with
               | Some old_session_id =>
                   let retrieve_params := pop_sessionId retrieve_params in
                   let* response := retrieve_and_generate svc retrieve_params in
                   ret (response, true)
               | None => raise e
               end
             else raise e
         | _ => raise e
         end).

Definition source_of (reference : Reference) : value :=
    let metadata : item := default ∅ (ref_metadata reference) in
    let file_id := default (VStr EmptyString) (metadata !! "fileId") in
    let text := default (VStr EmptyString) (default (∅ : item) (ref_content reference) !! "text") in
    VDict (<["fileId" := file_id]> (
           <["content" := text]> (
           <["metadata" := VDict metadata]> ∅))).

Definition extract_sources (response : Response) : list value :=
    match resp_citations response with
    | Some (c :: cs) =>
        concat (map (fun citation =>
                       map source_of (default [] (retrievedReferences citation)))
                    (c :: cs))
    | _ => []
    end.

Definition qp_get (query_params : gmap string string) (k : string) : value :=
    match query_params !! k with
    | Some s => VStr s
    | None => VNone
    end.

Definition kb_filter (tenant_id : string) (project_id : value)
      (file_ids : list value) : Filter :=
    FAndAll [ FEquals "tenantId" (VStr tenant_id);
              FEquals "projectId" project_id;
              FIn "fileId" file_ids ].

  (** The [try] block of [handle_query]: the call, the re-keying of the
      history after a recovery, and the 500 answer of the [except] clause.
      [session_changed] is only ever true when a string session id was
      supplied, so the re-keying is written under that case. *)
Definition query_attempt (event : Event) (user_id tenant_id : string)
      (project_id session_id : value) (retrieve_params : RetrieveParams)
      : M (Response + HttpResponse) :=
    try_except
      (let* rs := perform_retrieve_and_generate retrieve_params in
       let response := rs.1 in
       let session_changed := rs.2 in
       match session_id with
       | VStr old_session_id =>
           if session_changed && truthy session_id then
             let new_session_id :=
               match resp_sessionId response with
               | Some s => VStr s
               | None => VNone
               end in
             update_chat_history_session_id user_id tenant_id project_id
               old_session_id new_session_id ;;
             ret (inl response)
           else ret (inl response)
       | _ => ret (inl response)
       end)
      (fun e =>
         ret (inr (create_response event 500
                     (BErrorExn "Error querying knowledge base: " e)))).

  (** The call parameters built by [handle_query]; ['sessionId'] is added
      only for a non-empty string that is not blank. *)
Definition build_retrieve_params (query : value) (knowledge_base_id : string)
      (limit : Z) (filter_expression : Filter) (session_id : value)
      : RetrieveParams :=
    {| rp_input_text := query;
       rp_type := "KNOWLEDGE_BASE";
       rp_knowledgeBaseId := knowledge_base_id;
       rp_modelArn := "arn:aws:bedrock:us-east-1::foundation-model/amazon.nova-pro-v1:0";
       rp_numberOfResults := limit;
       rp_filter := filter_expression;
       rp_sessionId :=
         match session_id with
         | VStr s => if truthy session_id && strip_nonempty s then Some s else None
         | _ => None
         end |}.

  (** The part of [handle_query] after the [try] block: sources, the two
      ledger entries and the answer. *)
Definition record_turn (event : Event) (user_id tenant_id : string)
      (project_id query : value) (file_ids : list value) (response : Response)
      : M HttpResponse :=
    let sources := extract_sources response in
    let* session_id := lift_result (required "sessionId" (resp_sessionId response)) in
    let* timestamp := int_time svc in
    save_chat_message session_id user_id tenant_id project_id "user"
      query timestamp None ;;
    save_chat_message session_id user_id tenant_id project_id "ai"
      (default (VStr EmptyString) (default (∅ : item) (resp_output response) !! "text"))
      (timestamp + 1) (Some sources) ;;
    ret (create_response event 200
           (BQueryResult query response file_ids project_id tenant_id user_id)).

Definition handle_query (event : Event) (user_id tenant_id : string)
      : M HttpResponse :=
    let* parsed := lift_result (py_json_loads (event_body event)) in
    let* body := lift_result (as_dict parsed) in
    let query := dict_get body "query" in
    if negb (truthy query) then
      ret (create_response event 400 (BError "Query text is required"))
    else
    let query_params := default ∅ (ev_queryStringParameters event) in
    let project_id := py_or (qp_get query_params "projectId") (dict_get body "projectId") in
    let session_id := py_or (qp_get query_params "sessionId") (dict_get body "sessionId") in
    let limit := 5 in
    match configured (KNOWLEDGE_BASE_ID env) with
    | None => ret (create_response event 500 (BError "Knowledge base ID not configured"))
    | Some knowledge_base_id =>
    if negb (truthy project_id) then
      ret (create_response event 400 (BError "Project ID is required"))
    else
    let* file_ids := get_file_ids svc env tenant_id project_id in
    match file_ids with
    | [] => ret (create_response event 404 (BError "No files found for this project"))
    | _ :: _ =>
    let filter_expression := kb_filter tenant_id project_id file_ids in
    let retrieve_params :=
      build_retrieve_params query knowledge_base_id limit filter_expression session_id in
    let* outcome :=
      query_attempt event user_id tenant_id project_id session_id retrieve_params in
    match outcome with
    | inr error_response => ret error_response
    | inl response =>
        record_turn event user_id tenant_id project_id query file_ids response
    end
    end
    end.

Definition handle_get_session (event : Event) (user_id tenant_id project_id : string)
      : M HttpResponse :=
    if String.eqb project_id EmptyString then
      ret (create_response event 400 (BError "Project ID is required"))
    else
    let* messages := get_chat_history_by_tenant_user tenant_id user_id in
    match messages with
    | [] => ret (create_response event 200 (BMessages [] 0))
    | _ :: _ => ret (create_response event 200 (BMessages messages (length messages)))
    end.

Definition handle_delete_session (event : Event) (user_id tenant_id project_id : string)
      : M HttpResponse :=
    if String.eqb project_id EmptyString then
      ret (create_response event 400 (BError "Project ID is required"))
    else
    let* success := delete_chat_session tenant_id project_id user_id in
    if negb success then
      ret (create_response event 404
             (BError "Project chat history not found or not authorized"))
    else
      ret (create_response event 200
             (BMessage ("Project " +:+ project_id +:+ " chat history deleted successfully"))).

Definition handler (event : Event) : M HttpResponse :=
    try_except
      (match handle_options_request event with
       | Some options_response => ret options_response
       | None =>
       let* ut := lift_result (get_user_tenant_from_claims event) in
       let user_id := ut.1 in
       let tenant_id := ut.2 in
       if String.eqb user_id EmptyString || String.eqb tenant_id EmptyString then
         ret (create_response event 400 (BError "User ID and Tenant ID is required"))
       else
       let path := default EmptyString (ev_path event) in
       let http_method := default EmptyString (ev_httpMethod event) in
       if str_endswith path "/knowledge-base/query" && String.eqb http_method "POST" then
         handle_query event user_id tenant_id
       else if str_in "/knowledge-base/history/" path && String.eqb http_method "GET" then
         let* project_id := lift_result (required "id" (ev_pathParameters_id event)) in
         handle_get_session event user_id tenant_id project_id
       else if str_in "/knowledge-base/history/" path && String.eqb http_method "DELETE" then
         let* project_id := lift_result (required "id" (ev_pathParameters_id event)) in
         handle_delete_session event user_id tenant_id project_id
       else
         ret (create_response event 400 (BError "Unsupported operation"))
       end)
      (handle_exceptions event).
End Code.
End QueryKnowledgeBase.

(** ** CheckKnowledgeBaseStatus.py *)

Module CheckKnowledgeBaseStatus.
Import common_utils.
Section Code.
Variable rt : Runtime.
Variable svc : Services.
Variable env : Env.

  (** [v[k]] for a string key: only a [dict] can be subscripted by it. *)
Definition subscript (v : value) (k : string) : Result value :=
    match v with
    | VDict d => getitem d k
    | _ => Raise TypeError
    end.

  (** [int(v)]. *)
Definition py_int (v : value) : Result Z :=
    match v with
    | VInt n => Ok n
    | VBool b => Ok (if b then 1 else 0)
    | VStr s =>
        match int_of_str rt s with
        | Some n => Ok n
        | None => Raise (ValueError "invalid literal for int()")
        end
    | _ => Raise TypeError
    end.

Definition get_project_files (user_id tenant_id : string) (project_id : value)
      : M (option (list item)) :=
    try_except
      (match configured (PROJECT_FILES_TABLE env) with
       | None => ret None
       | Some project_files_table =>
           let* response :=
             table_query svc project_files_table "tenantId-projectId-index"
               [("tenantId", VStr tenant_id); ("projectId", project_id)] None in
           match page_Items response with
           | None => raise TypeError
           | Some files => ret (Some files)
           end
       end)
      (fun _ => ret None).

  (** [next(tenant for tenant in tenants if tenant['Id'] == tenant_id)] over
      a list. *)
Fixpoint first_tenant (tenant_id : string) (tenants : list value)
      : Result value :=
    match tenants with
    | [] => Ok VNone
    | tenant :: tenants' =>
        match subscript tenant "Id" with
        | Raise e => Raise e
        | Ok i => if eq_str i tenant_id then Ok tenant
                  else first_tenant tenant_id tenants'
        end
    end.

  (** Iterating a [dict] or a [str] yields strings, which cannot be
      subscripted by ['Id']; the other values are not iterable. *)
Definition find_tenant (tenant_id : string) (tenants : value) : Result value :=
    match tenants with
    | VList l => first_tenant tenant_id l
    | VDict d => if Nat.eqb (size d) 0 then Ok VNone else Raise TypeError
    | VStr s => if String.eqb s EmptyString then Ok VNone else Raise TypeError
    | _ => Raise TypeError
    end.

Definition kb_file_record (file_id : value) (user_id tenant_id : string)
      (project_id : value) (createdAt ttl : Z) : item :=
    <["id" := file_id]> (
    <["userId" := VStr user_id]> (
    <["tenantId" := VStr tenant_id]> (
    <["projectId" := project_id]> (
    <["documentStatus" := VStr "ready"]> (
    <["createdAt" := VInt createdAt]> (
    <["ttl" := VInt ttl]> ∅)))))).

Definition kb_document (file_id : value) (s3_uri : string)
      (user_id tenant_id : string) (project_id : value) : Document :=
    {| doc_dataSourceType := "CUSTOM";
       doc_id := file_id;
       doc_uri := s3_uri;
       doc_sourceType := "S3_LOCATION";
       doc_metadataType := "IN_LINE_ATTRIBUTE";
       doc_inlineAttributes :=
         [ ("userId", VStr user_id);
           ("tenantId", VStr tenant_id);
           ("projectId", project_id);
           ("fileId", file_id) ] |}.

Definition ingest_file (user_id tenant_id : string) (project_id : value)
      (ttl : Z) (file : item) : M unit :=
    let* file_id := lift_result (getitem file "id") in
    let s3_key := dict_get file "s3Key" in
    let bucket := dict_get file "bucket" in
    let* createdAt := int_time svc in
    write svc (CPut (KNOWLEDGE_BASE_FILES_TABLE env)
                 (kb_file_record file_id user_id tenant_id project_id createdAt ttl)) ;;
    let* client_token := uuid4 svc in
    let s3_uri := "s3://" +:+ str_of rt bucket +:+ "/" +:+ str_of rt s3_key in
    write svc (CIngest (KNOWLEDGE_BASE_ID env) (DATA_SOURCE_ID env) client_token
                 (kb_document file_id s3_uri user_id tenant_id project_id)).

Definition ingest_files (user_id tenant_id : string) (project_id : value)
      (files : list item) : M unit :=
    let* ttl :=
      try_except
        (let* parsed := lift_result (QueryKnowledgeBase.py_json_loads rt (TENANTS env)) in
         let* tenants := lift_result (subscript parsed "Tenants") in
         let* tenant := lift_result (find_tenant tenant_id tenants) in
         let* now := int_time svc in
         let* hours := lift_result (subscript tenant "FilesTTLHours") in
         let* hours := lift_result (py_int hours) in
         ret (now + hours * 3600))
        (fun e =>
           match e with
           | ValueError _ => raise (ValueError "TENANTS must be a valid json object")
           | _ => raise e
           end) in
    try_except
      (for_each files (ingest_file user_id tenant_id project_id ttl))
      (fun e => raise e).

Definition handler (event : Event) : M HttpResponse :=
    match handle_options_request event with
    | Some options_response => ret options_response
    | None =>
    try_except
      (let* ut := lift_result (get_user_tenant_from_claims event) in
       let user_id := ut.1 in
       let tenant_id := ut.2 in
       let* parsed := lift_result
         (QueryKnowledgeBase.py_json_loads rt (event_body event)) in
       let* body := lift_result (QueryKnowledgeBase.as_dict parsed) in
       let project_id := dict_get body "projectId" in
       match configured (KNOWLEDGE_BASE_ID env) with
       | None => ret (create_response event 500 (BError "Knowledge base ID not configured"))
       | Some knowledge_base_id =>
       if String.eqb user_id EmptyString then
         ret (create_response event 400 (BError "User ID is required"))
       else if negb (truthy project_id) then
         ret (create_response event 400 (BError "Report project ID is required"))
       else
       let* selected_files := get_project_files user_id tenant_id project_id in
       match selected_files with
       | None | Some [] =>
           ret (create_response event 400 (BError "Project requires files"))
       | Some (f :: fs) =>
           ingest_files user_id tenant_id project_id (f :: fs) ;;
           ret (create_response event 200
                  (BStatus "ready" "All files are in the knowledge base"))
       end
       end)
      (handle_exceptions event)
    end.
End Code.
End CheckKnowledgeBaseStatus.

(** ** CleanupKnowledgeBase.py *)

Module CleanupKnowledgeBase.
Section Code.
Variable svc : Services.
Variable env : Env.

Definition is_remove (record : StreamRecord) : bool :=
    match eventName record with
    | Some n => String.eqb n "REMOVE"
    | None => false
    end.

  (** [userIdentity.type == 'Service'] and
      [userIdentity.principalId == 'dynamodb.amazonaws.com']. *)
Definition is_ttl_expiry (record : StreamRecord) : bool :=
    let user_identity :=
      default {| ui_type := None; ui_principalId := None |} (userIdentity record) in
    match ui_type user_identity, ui_principalId user_identity with
    | Some t, Some p => String.eqb t "Service" && String.eqb p "dynamodb.amazonaws.com"
    | _, _ => false
    end.

  (** [record.get('dynamodb', {}).get('Keys', {}).get(k, {}).get('S')]. *)
Definition key_S (record : StreamRecord) (k : string) : value :=
    let data := default {| sd_Keys := None; sd_OldImage := None |} (dynamodb record) in
    let keys : gmap string item := default ∅ (sd_Keys data) in
    dict_get (default ∅ (keys !! k)) "S".

  (** The [for record in event.get('Records', [])] loop with its two
      counters. *)
Fixpoint process_records (knowledge_base_id data_source_id : string)
      (records : list StreamRecord) (processed_count error_count : nat)
      : M (nat * nat) :=
    match records with
    | [] => ret (processed_count, error_count)
    | record :: records' =>
        if is_remove record then
          if is_ttl_expiry record then
            let file_id := key_S record "id" in
            let tenant_id := key_S record "tenantId" in
            if negb (truthy file_id) then
              process_records knowledge_base_id data_source_id records'
                processed_count error_count
            else if negb (truthy tenant_id) then
              process_records knowledge_base_id data_source_id records'
                processed_count error_count
            else
              let* deleted :=
                try_except
                  (let* client_token := uuid4 svc in
                   write svc (CDeleteDoc knowledge_base_id data_source_id
                                client_token file_id) ;;
                   ret true)
                  (fun _ => ret false) in
              if deleted : bool then
                process_records knowledge_base_id data_source_id records'
                  (S processed_count) error_count
              else
                process_records knowledge_base_id data_source_id records'
                  processed_count (S error_count)
          else
            process_records knowledge_base_id data_source_id records'
              processed_count error_count
        else
          process_records knowledge_base_id data_source_id records'
            processed_count error_count
    end.

Definition lambda_handler (event : StreamEvent) : M ReaperResponse :=
    try_except
      (match configured (KNOWLEDGE_BASE_ID env) with
       | None => ret {| r_statusCode := 500;
                        r_body := RError "Knowledge base ID not configured" |}
       | Some knowledge_base_id =>
       match configured (DATA_SOURCE_ID env) with
       | None => ret {| r_statusCode := 500;
                        r_body := RError "Data source ID not configured" |}
       | Some data_source_id =>
       match configured (KNOWLEDGE_BASE_FILES_TABLE env) with
       | None => ret {| r_statusCode := 500;
                        r_body := RError "Knowledge base files table name not configured" |}
       | Some kb_files_table_name =>
       match default [] (Records event) with
       | [] => ret {| r_statusCode := 200; r_body := RNoRecords |}
       | r :: rs =>
           let* counts :=
             process_records knowledge_base_id data_source_id (r :: rs) 0 0 in
           ret {| r_statusCode := 200; r_body := RProcessed counts.1 counts.2 |}
       end
       end
       end
       end)
      (fun e =>
         match e with
         | ClientError _ _ =>
             ret {| r_statusCode := 500; r_body := RErrorExn "AWS Client Error: " e |}
         | _ =>
             ret {| r_statusCode := 500;
                    r_body := RErrorExn "Error processing TTL expiration events: " e |}
         end).
End Code.
End CleanupKnowledgeBase.

(** ** Observations on recorded calls *)

(** Items of all pages of an answer, in page order. *)
Fixpoint pages_all_items (pg : Pages) : list item :=
  match pg with
  | PFail _ => []
  | PLast items => default [] items
  | PMore items _ rest => default [] items ++ pages_all_items rest
  end.

Definition is_PFail (pg : Pages) : bool :=
  match pg with PFail _ => true | _ => false end.

(** The [timestamp] attribute of a chat message. *)
Definition timestamp_of (m : item) : Z :=
  match m !! "timestamp" with
  | Some (VInt n) => n
  | _ => 0
  end.

(** The key condition of the chat history index. *)
Definition user_partition (tenant_id user_id : string) : list (string * value) :=
  [("tenantId", VStr tenant_id); ("userId", VStr user_id)].

(** Parameters of the [retrieve_and_generate] calls, in order. *)
Definition retrieve_calls (tr : History) : list RetrieveParams :=
  omap (fun ev : Call * bool =>
          match ev.1 with CRetrieve p => Some p | _ => None end) tr.

(** Items of the [put_item] requests sent to [table], in order. *)
Definition put_requests (table : option string) (tr : History) : list item :=
  omap (fun ev : Call * bool =>
          match ev.1 with
          | CPut t it => if bool_decide (t = table) then Some it else None
          | _ => None
          end) tr.

(** Items of the [put_item] requests that [table] accepted. *)
Definition stored (table : option string) (tr : History) : list item :=
  put_requests table (filter (fun ev : Call * bool => ev.2 = true) tr).

(** Requests of the [BatchWriteItem] calls sent to [table], in order. *)
Definition batch_requests (table : string) (tr : History) : list BatchRequest :=
  concat (omap (fun ev : Call * bool =>
                  match ev.1 with
                  | CBatchWrite t requests =>
                      if bool_decide (t = table) then Some requests else None
                  | _ => None
                  end) tr).

(** Document ids of the [delete_knowledge_base_documents] calls. *)
Definition delete_calls (tr : History) : list value :=
  omap (fun ev : Call * bool =>
          match ev.1 with CDeleteDoc _ _ _ i => Some i | _ => None end) tr.

(** Documents of the [ingest_knowledge_base_documents] calls. *)
Definition ingest_calls (tr : History) : list Document :=
  omap (fun ev : Call * bool =>
          match ev.1 with CIngest _ _ _ d => Some d | _ => None end) tr.

(** Calls that change a table or the index. *)
Definition is_mutation (c : Call) : bool :=
  match c with
  | CPut _ _ | CBatchWrite _ _ | CIngest _ _ _ _ | CDeleteDoc _ _ _ _ => true
  | CTime _ | CUuid _ | CQuery _ _ _ _ _ | CRetrieve _ => false
  end.

Definition is_query (c : Call) : bool :=
  match c with CQuery _ _ _ _ _ => true | _ => false end.

(** Every call made by [m], whatever the calls before it, satisfies [P]. *)
Definition emits {A} (P : Call * bool -> Prop) (m : M A) : Prop :=
  forall h, Forall P (m h).2.

(** The test that [perform_retrieve_and_generate] applies to a failure. *)
Definition session_not_recognized (e : exn) : bool :=
  match e with
  | ClientError code message =>
      QueryKnowledgeBase.is_invalid_session (default "Unknown" code) (default EmptyString message)
  | _ => false
  end.

(** The text [part] occurs in [text]. *)
Definition occurs_in (part text : string) : Prop :=
  exists before after, text = before +:+ part +:+ after.

(** In the words of the specification: a validation error whose message
    indicates that the supplied session id is not recognised by the service.
    The service words it "Session with Id ... is not valid". *)
Definition unknown_session_error (e : exn) : Prop :=
  exists message,
    e = ClientError (Some "ValidationException") (Some message)
    /\ occurs_in "is not valid" message
    /\ occurs_in "Session with Id" message.

(** The project a query request names: the query-string parameter, else the
    body field. *)
Definition requested_project (event : Event) (body : item) : value :=
  py_or (QueryKnowledgeBase.qp_get (default ∅ (ev_queryStringParameters event)) "projectId")
        (dict_get body "projectId").

(** The session id a query request names. *)
Definition requested_session (event : Event) (body : item) : value :=
  py_or (QueryKnowledgeBase.qp_get (default ∅ (ev_queryStringParameters event)) "sessionId")
        (dict_get body "sessionId").

(** The checks of the reaper's loop on one record. *)
Definition qualifies (record : StreamRecord) : bool :=
  CleanupKnowledgeBase.is_remove record
  && CleanupKnowledgeBase.is_ttl_expiry record
  && truthy (CleanupKnowledgeBase.key_S record "id")
  && truthy (CleanupKnowledgeBase.key_S record "tenantId").

(** The [S] entry of the key attribute [k] of a stream record. *)
Definition key_string (record : StreamRecord) (k : string) : option value :=
  match dynamodb record with
  | Some data =>
      match sd_Keys data with
      | Some keys =>
          match keys !! k with
          | Some attribute => attribute !! "S"
          | None => None
          end
      | None => None
      end
  | None => None
  end.

(** In the words of the specification: the record is a removal whose actor
    is the store's own service principal (the marker of an automatic expiry),
    and it carries a file id and a tenant id. *)
Definition system_removal (record : StreamRecord) (file_id : value) : Prop :=
  eventName record = Some "REMOVE"
  /\ (exists actor,
        userIdentity record = Some actor
        /\ ui_type actor = Some "Service"
        /\ ui_principalId actor = Some "dynamodb.amazonaws.com")
  /\ key_string record "id" = Some file_id
  /\ truthy file_id = true
  /\ exists tenant_id,
       key_string record "tenantId" = Some tenant_id /\ truthy tenant_id = true.

(** The file id of a system-initiated removal, and [None] for every other
    record. *)
Definition expired_file_id (record : StreamRecord) : option value :=
  match eventName record, userIdentity record,
        key_string record "id", key_string record "tenantId" with
  | Some name, Some actor, Some file_id, Some tenant_id =>
      if bool_decide (name = "REMOVE"
                      /\ ui_type actor = Some "Service"
                      /\ ui_principalId actor = Some "dynamodb.amazonaws.com")
         && truthy file_id && truthy tenant_id
      then Some file_id
      else None
  | _, _, _, _ => None
  end.

(** Outcomes of the deletion calls, in order. *)
Definition delete_outcomes (tr : History) : list bool :=
  omap (fun ev : Call * bool =>
          match ev.1 with CDeleteDoc _ _ _ _ => Some ev.2 | _ => None end) tr.

(** Knowledge base and data source of the deletion calls. *)
Definition delete_targets (tr : History) : list (string * string) :=
  omap (fun ev : Call * bool =>
          match ev.1 with CDeleteDoc kb ds _ _ => Some (kb, ds) | _ => None end) tr.

Definition count_true (l : list bool) : nat := length (filter (fun b => b = true) l).
Definition count_false (l : list bool) : nat := length (filter (fun b => b = false) l).

(** The retention of a tenant, in hours, as [ingest_files] looks it up in the
    [TENANTS] configuration. *)
Definition files_ttl_hours (rt : Runtime) (env : Env) (tenant_id : string)
    : Result Z :=
  match QueryKnowledgeBase.py_json_loads rt (TENANTS env) with
  | Raise e => Raise e
  | Ok parsed =>
      match CheckKnowledgeBaseStatus.subscript parsed "Tenants" with
      | Raise e => Raise e
      | Ok tenants =>
          match CheckKnowledgeBaseStatus.find_tenant tenant_id tenants with
          | Raise e => Raise e
          | Ok tenant =>
              match CheckKnowledgeBaseStatus.subscript tenant "FilesTTLHours" with
              | Raise e => Raise e
              | Ok hours => CheckKnowledgeBaseStatus.py_int rt hours
              end
          end
      end
  end.

(** Readings of the clock, in order. *)
Definition time_readings (tr : History) : list Z :=
  omap (fun ev : Call * bool =>
          match ev.1 with CTime t => Some t | _ => None end) tr.

(** The [s3://bucket/key] location of a registered file. *)
Definition s3_uri (rt : Runtime) (file : item) : string :=
  "s3://" +:+ str_of rt (dict_get file "bucket") +:+ "/" +:+ str_of rt (dict_get file "s3Key").

(** Every [put_item] request to [table] in [tr] was accepted. *)
Definition puts_accepted (table : option string) (tr : History) : Prop :=
  forall it ok, (CPut table it, ok) ∈ tr -> ok = true.

(** The message is filed under session [old]. *)
Definition in_session (old : string) (msg : item) : Prop :=
  eq_str (dict_get msg "sessionId") old = true.

(** ** A sample deployment

    One tenant [t1] with a retention of one hour, one user [u1], one project
    [p1] with one registered file [f1], and a chat history of two entries,
    one of them filed under the session [s-old].  The collaborators are
    assembled from a store answer, a write policy and a retrieval service,
    so that the scenarios below differ in one collaborator at a time. *)

Module Sample.

Definition body_text : string := "{query: What is the refund policy?, projectId: p1}".
Definition session_body_text : string :=
    "{query: What is the refund policy?, projectId: p1, sessionId: s-old}".
Definition ingest_body_text : string := "{projectId: p1}".
Definition tenants_text : string := "{Tenants: [{Id: t1, FilesTTLHours: 1}]}".

Definition request_dict (session : option string) : item :=
    let d : item :=
      <["query" := VStr "What is the refund policy?"]> (<["projectId" := VStr "p1"]> ∅) in
    match session with
    | Some s => <["sessionId" := VStr s]> d
    | None => d
    end.

Definition request_body (session : option string) : value :=
    VDict (request_dict session).

Definition ingest_dict : item := <["projectId" := VStr "p1"]> ∅.

Definition tenants : value :=
    VDict (<["Tenants" :=
              VList [VDict (<["Id" := VStr "t1"]> (<["FilesTTLHours" := VInt 1]> ∅))]]> ∅).

  (** The parser on the texts of the sample. *)
Definition rt : Runtime :=
    {| json_loads := fun s =>
         if String.eqb s "{}" then Some (VDict ∅)
         else if String.eqb s body_text then Some (request_body None)
         else if String.eqb s session_body_text then Some (request_body (Some "s-old"))
         else if String.eqb s ingest_body_text then Some (VDict ingest_dict)
         else if String.eqb s tenants_text then Some tenants
         else None;
       int_of_str := fun _ => None;
       str_of := fun v => match v with VStr s => s | _ => "None" end |}.

Definition env : Env :=
    {| KNOWLEDGE_BASE_ID := Some "kb-1";
       DATA_SOURCE_ID := Some "ds-1";
       PROJECT_FILES_TABLE := Some "project-files";
       KNOWLEDGE_BASE_FILES_TABLE := Some "kb-files";
       CHAT_HISTORY_TABLE := Some "chat-history";
       TENANTS := Some tenants_text |}.

Definition claims : gmap string string :=
    <["sub" := "u1"]> (<["custom:tenantId" := "t1"]> ∅).

Definition query_event (body_text : string) : Event :=
    {| ev_httpMethod := Some "POST";
       ev_path := Some "/knowledge-base/query";
       ev_claims := Some claims;
       ev_body := Some (Some body_text);
       ev_queryStringParameters := None;
       ev_pathParameters_id := None |}.

Definition ingest_event : Event :=
    {| ev_httpMethod := Some "POST";
       ev_path := Some "/knowledge-base/status";
       ev_claims := Some claims;
       ev_body := Some (Some ingest_body_text);
       ev_queryStringParameters := None;
       ev_pathParameters_id := None |}.

Definition delete_event : Event :=
    {| ev_httpMethod := Some "DELETE";
       ev_path := Some "/knowledge-base/history/p1";
       ev_claims := Some claims;
       ev_body := None;
       ev_queryStringParameters := None;
       ev_pathParameters_id := Some "p1" |}.

Definition file1 : item :=
    <["id" := VStr "f1"]> (<["tenantId" := VStr "t1"]> (<["projectId" := VStr "p1"]> (
    <["bucket" := VStr "uploads"]> (<["s3Key" := VStr "t1/p1/f1.pdf"]> ∅)))).

Definition message (id session ty : string) (ts : Z) : item :=
    <["id" := VStr id]> (<["sessionId" := VStr session]> (<["tenantId" := VStr "t1"]> (
    <["userId" := VStr "u1"]> (<["projectId" := VStr "p1"]> (<["type" := VStr ty]> (
    <["content" := VStr "..."]> (<["timestamp" := VInt ts]> ∅))))))).

Definition msg_old : item := message "m1" "s-old" "user" 10.
Definition msg_other : item := message "m2" "s-other" "user" 20.
Definition throttled : exn :=
    ClientError (Some "ProvisionedThroughputExceededException") (Some "Rate exceeded").

Definition invalid_session : exn :=
    ClientError (Some "ValidationException")
      (Some "Session with Id s-old is not valid. Please check and try again.").

Definition answer : Response :=
    {| resp_sessionId := Some "s-new";
       resp_output := Some (<["text" := VStr "Within thirty days."]> ∅);
       resp_citations :=
         Some [ {| retrievedReferences :=
                     Some [ {| ref_metadata := Some (<["fileId" := VStr "f1"]> ∅);
                               ref_content :=
                                 Some (<["text" := VStr "Refunds are accepted within 30 days"]> ∅)
                            |} ] |} ] |}.

  (** The generation service does not know the session [s-old]. *)
Definition retrieve (h : History) (p : RetrieveParams) : Result Response :=
    match rp_sessionId p with
    | Some _ => Raise invalid_session
    | None => Ok answer
    end.

Fixpoint tally (n : nat) : string :=
    match n with
    | O => EmptyString
    | S n' => String "i" (tally n')
    end.

  (** The clock advances by one second with every call, and the generator
      never repeats an identifier. *)
Definition services (files : Pages) (history : Pages)
      (accept : Call -> option exn) : Services :=
    {| sv_time := fun h => 100 + Z.of_nat (length h);
       sv_uuid := fun h => "uuid-" +:+ tally (length h);
       sv_query := fun _ table _ _ =>
         if String.eqb table "project-files" then files else history;
       sv_write := fun _ c => accept c;
       sv_retrieve := retrieve |}.

Definition accept_all (c : Call) : option exn := None.

Definition reject_puts (c : Call) : option exn :=
    match c with
    | CPut _ _ => Some throttled
    | _ => None
    end.

Definition reject_f2 (c : Call) : option exn :=
    match c with
    | CDeleteDoc _ _ _ (VStr "f2") => Some throttled
    | _ => None
    end.

Definition one_file : Pages := PLast (Some [file1]).
Definition no_files : Pages := PLast (Some []).
Definition whole_history : Pages := PLast (Some [msg_old; msg_other]).

  (** The history in two pages. *)
Definition paged_history : Pages :=
    PMore (Some [msg_old]) (<["id" := VStr "m1"]> ∅) (PLast (Some [msg_other])).

Definition svc : Services := services one_file whole_history accept_all.

  (** The parameters of a first attempt under the session [s-old]. *)
Definition first_attempt : RetrieveParams :=
    QueryKnowledgeBase.build_retrieve_params (VStr "What is the refund policy?") "kb-1" 5
      (QueryKnowledgeBase.kb_filter "t1" (VStr "p1") [VStr "f1"]) (VStr "s-old").

Definition files_query : Call * bool :=
    (CQuery "project-files" "tenantId-projectId-index"
       [("tenantId", VStr "t1"); ("projectId", VStr "p1")] None None, true).

  (** The answer and the calls of a run that ended normally. *)
Definition outcome (run : Result HttpResponse * History) : HttpResponse :=
    match run.1 with
    | Ok r => r
    | Raise _ => {| statusCode := 0; body := BEmpty |}
    end.

  (** A query under the unknown session [s-old], with a store that works. *)
Definition recovered_run : Result HttpResponse * History := Eval vm_compute in
      QueryKnowledgeBase.handle_query rt svc env (query_event session_body_text) "u1" "t1" [].

  (** A query without a session, with a store that works. *)
Definition plain_run : Result HttpResponse * History := Eval vm_compute in
      QueryKnowledgeBase.handle_query rt svc env (query_event body_text) "u1" "t1" [].

  (** An ingestion of the one file of the project. *)
Definition ingest_run : Result unit * History := Eval vm_compute in
      CheckKnowledgeBaseStatus.ingest_files rt svc env "u1" "t1" (VStr "p1") [file1] [].

  (** Stream records: an expiry of [f1], a removal of [f3] by a caller, an
      insertion, and an expiry of [f2]. *)
Definition keys (id : string) : gmap string item :=
    <["id" := (<["S" := VStr id]> ∅ : item)]> (<["tenantId" := (<["S" := VStr "t1"]> ∅ : item)]> ∅).

Definition stream_record (name : string) (actor : option UserIdentity) (id : string)
      : StreamRecord :=
    {| eventName := Some name;
       userIdentity := actor;
       dynamodb := Some {| sd_Keys := Some (keys id); sd_OldImage := None |} |}.

Definition ttl_service : UserIdentity :=
    {| ui_type := Some "Service"; ui_principalId := Some "dynamodb.amazonaws.com" |}.

Definition batch : StreamEvent :=
    {| Records := Some [ stream_record "REMOVE" (Some ttl_service) "f2";
                         stream_record "REMOVE" None "f3";
                         stream_record "INSERT" None "f4";
                         stream_record "REMOVE" (Some ttl_service) "f1" ] |}.
End Sample.

(** ** Running the monad *)

Lemma bind_run {A B} (m : M A) (k : A -> M B) h :
  bind m k h =
  match m h with
  | (Ok a, es) => ((k a (h ++ es)).1, es ++ (k a (h ++ es)).2)
  | (Raise e, es) => (Raise e, es)
  end.
Proof.
  unfold bind. destruct (m h) as [[a|e] es]; [|done].
  by destruct (k a (h ++ es)).
Qed.

Lemma try_except_run {A} (m : M A) (handler : exn -> M A) h :
  try_except m handler h =
  match m h with
  | (Ok a, es) => (Ok a, es)
  | (Raise e, es) => ((handler e (h ++ es)).1, es ++ (handler e (h ++ es)).2)
  end.
Proof.
  unfold try_except. destruct (m h) as [[a|e] es]; [done|].
  by destruct (handler e (h ++ es)).
Qed.

Section Emits.
Context (P : Call * bool -> Prop).

Lemma emits_ret {A} (a : A) : emits P (ret a).
  Proof. intros h. constructor. Qed.

Lemma emits_raise {A} e : emits P (@raise A e).
  Proof. intros h. constructor. Qed.

Lemma emits_lift_result {A} (r : Result A) : emits P (lift_result r).
  Proof. intros h. constructor. Qed.

Lemma emits_bind {A B} (m : M A) (k : A -> M B) :
    emits P m -> (forall a, emits P (k a)) -> emits P (bind m k).
  Proof.
    intros Hm Hk h. rewrite bind_run. specialize (Hm h).
    destruct (m h) as [[a|e] es]; simpl in *; [|done].
    apply Forall_app. split; [done|apply Hk].
  Qed.

Lemma emits_try_except {A} (m : M A) handler :
    emits P m -> (forall e, emits P (handler e)) -> emits P (try_except m handler).
  Proof.
    intros Hm Hk h. rewrite try_except_run. specialize (Hm h).
    destruct (m h) as [[a|e] es]; simpl in *; [done|].
    apply Forall_app. split; [done|apply Hk].
  Qed.

Lemma emits_for_each {A} (l : list A) (f : A -> M unit) :
    (forall x, emits P (f x)) -> emits P (for_each l f).
  Proof.
    intros Hf. induction l as [|x l IH]; simpl.
    - apply emits_ret.
    - apply emits_bind; [apply Hf | intros _; apply IH].
  Qed.

Lemma emits_int_time svc : (forall t, P (CTime t, true)) -> emits P (int_time svc).
  Proof. intros H h. repeat constructor. apply H. Qed.

Lemma emits_uuid4 svc : (forall u, P (CUuid u, true)) -> emits P (uuid4 svc).
  Proof. intros H h. repeat constructor. apply H. Qed.

Lemma emits_write svc c : (forall ok, P (c, ok)) -> emits P (write svc c).
  Proof.
    intros H h. unfold write. destruct (sv_write svc h c); repeat constructor; apply H.
  Qed.

Lemma emits_retrieve_and_generate svc p :
    (forall ok, P (CRetrieve p, ok)) -> emits P (retrieve_and_generate svc p).
  Proof.
    intros H h. unfold retrieve_and_generate.
    destruct (sv_retrieve svc h p); repeat constructor; apply H.
  Qed.

Lemma emits_query_page table index cond fwd start pg :
    (forall ok, P (CQuery table index cond fwd start, ok)) ->
    emits P (query_page table index cond fwd start pg).
  Proof.
    intros H h. unfold query_page. destruct pg; repeat constructor; apply H.
  Qed.

Lemma emits_table_query svc table index cond fwd :
    (forall ok, P (CQuery table index cond fwd None, ok)) ->
    emits P (table_query svc table index cond fwd).
  Proof. intros H h. unfold table_query. by apply emits_query_page. Qed.

End Emits.

Lemma emits_impl {A} (P Q : Call * bool -> Prop) (m : M A) :
  (forall ev, P ev -> Q ev) -> emits P m -> emits Q m.
Proof. intros HPQ Hm h. eapply Forall_impl; [apply Hm | done]. Qed.

Import common_utils QueryKnowledgeBase.

Ltac emits_step :=
  first
    [ apply emits_ret | apply emits_raise | apply emits_lift_result
    | apply emits_bind; [|intros ?]
    | apply emits_try_except; [|intros ?]
    | apply emits_for_each; intros ?
    | apply emits_int_time; intros ?
    | apply emits_uuid4; intros ?
    | apply emits_write; intros ?
    | apply emits_retrieve_and_generate; intros ?
    | apply emits_query_page; intros ?
    | apply emits_table_query; intros ?
    | match goal with
      | |- emits _ (match ?x with _ => _ end) => destruct x
      | |- emits _ (if ?x then _ else _) => destruct x
      | |- emits _ (let _ := _ in _) => cbv zeta
      end ].

Lemma get_file_ids_emits svc env tenant_id project_id :
  emits (fun ev => is_query ev.1 = true) (get_file_ids svc env tenant_id project_id).
Proof. unfold get_file_ids. repeat emits_step; done. Qed.

(** The retrieval of the chat history ends at the attribute lookup: the
    scan raises before it sends a request, and the function returns the
    empty list. *)
Lemma scan_chat_history_run svc table tenant_id user_id h :
  scan_chat_history svc table tenant_id user_id h = (Raise AttributeError, []).
Proof. done. Qed.

Lemma get_chat_history_run svc env tenant_id user_id h :
  get_chat_history_by_tenant_user svc env tenant_id user_id h =
  match CHAT_HISTORY_TABLE env with
  | Some _ => (Ok [], [])
  | None => (Raise (KeyError "CHAT_HISTORY_TABLE"), [])
  end.
Proof.
  unfold get_chat_history_by_tenant_user. rewrite bind_run.
  by destruct (CHAT_HISTORY_TABLE env).
Qed.

Lemma batch_delete_items_nil svc table h :
  batch_delete_items svc table [] h = (Ok true, []).
Proof. done. Qed.

Lemma delete_chat_session_run svc env tenant_id project_id user_id h :
  delete_chat_session svc env tenant_id project_id user_id h =
  (Ok (bool_decide (is_Some (CHAT_HISTORY_TABLE env))), []).
Proof.
  unfold delete_chat_session.
  rewrite try_except_run, bind_run, get_chat_history_run.
  by destruct (CHAT_HISTORY_TABLE env).
Qed.

Lemma update_chat_history_run svc env user_id tenant_id results_id old new h :
  update_chat_history_session_id svc env user_id tenant_id results_id old new h =
  (Ok (bool_decide (is_Some (CHAT_HISTORY_TABLE env))), []).
Proof.
  unfold update_chat_history_session_id.
  rewrite try_except_run, bind_run.
  destruct (CHAT_HISTORY_TABLE env) as [table|] eqn:Htable; [|done].
  cbn [required lift_result fst snd]. rewrite bind_run, get_chat_history_run, Htable.
  done.
Qed.

Lemma save_chat_message_emits svc env sid u t p ty c ts src :
  emits (fun ev => match ev.1 with CUuid _ | CPut _ _ => True | _ => False end)
        (save_chat_message svc env sid u t p ty c ts src).
Proof. unfold save_chat_message. repeat emits_step; done. Qed.

Lemma update_chat_history_emits (P : Call * bool -> Prop) svc env u t r old new :
  emits P (update_chat_history_session_id svc env u t r old new).
Proof. intros h. by rewrite update_chat_history_run. Qed.

Lemma perform_emits svc p :
  emits (fun ev => ev.1 = CRetrieve p \/ ev.1 = CRetrieve (pop_sessionId p))
        (perform_retrieve_and_generate svc p).
Proof.
  unfold perform_retrieve_and_generate. repeat emits_step; simpl; auto.
Qed.

Lemma bind_trace_prefix {A B} (m : M A) (k : A -> M B) h :
  exists rest, (bind m k h).2 = (m h).2 ++ rest.
Proof.
  rewrite bind_run. destruct (m h) as [[a|e] es]; simpl; [by eexists|].
  exists []. by rewrite app_nil_r.
Qed.

Lemma try_except_trace_prefix {A} (m : M A) handler h :
  exists rest, (try_except m handler h).2 = (m h).2 ++ rest.
Proof.
  rewrite try_except_run. destruct (m h) as [[a|e] es]; simpl; [|by eexists].
  exists []. by rewrite app_nil_r.
Qed.

Lemma lift_result_run {A} (r : Result A) h : lift_result r h = (r, []).
Proof. done. Qed.

Lemma ret_run {A} (a : A) h : ret a h = (Ok a, []).
Proof. done. Qed.

Lemma raise_run {A} e h : @raise A e h = (Raise e, []).
Proof. done. Qed.

Lemma int_time_run svc h :
  int_time svc h = (Ok (sv_time svc h), [(CTime (sv_time svc h), true)]).
Proof. done. Qed.

Lemma uuid4_run svc h :
  uuid4 svc h = (Ok (sv_uuid svc h), [(CUuid (sv_uuid svc h), true)]).
Proof. done. Qed.

Lemma write_run svc c h :
  write svc c h =
  match sv_write svc h c with
  | None => (Ok tt, [(c, true)])
  | Some e => (Raise e, [(c, false)])
  end.
Proof. done. Qed.

(** Symbolic execution of straight-line handler code. *)
Ltac run :=
  repeat first
    [ progress (cbv beta iota zeta; cbn [fst snd])
    | rewrite bind_run | rewrite try_except_run
    | rewrite lift_result_run | rewrite ret_run | rewrite raise_run
    | rewrite int_time_run | rewrite uuid4_run ].

Ltac run_in H :=
  repeat first
    [ progress (cbv beta iota zeta in H; cbn [fst snd] in H)
    | rewrite bind_run in H | rewrite try_except_run in H
    | rewrite lift_result_run in H | rewrite ret_run in H | rewrite raise_run in H
    | rewrite int_time_run in H | rewrite uuid4_run in H ].

Lemma not_retrieve_of_query (tr : History) p ok :
  Forall (fun ev => is_query ev.1 = true) tr -> (CRetrieve p, ok) ∉ tr.
Proof.
  intros H Hin. rewrite Forall_forall in H. by apply H in Hin.
Qed.

(** ** Session-aware execution: attempt and recover *)

Lemma perform_run svc (p : RetrieveParams) (h : History) :
  perform_retrieve_and_generate svc p h =
  match sv_retrieve svc h p with
  | Ok response => (Ok (response, false), [(CRetrieve p, true)])
  | Raise e =>
      if session_not_recognized e && bool_decide (is_Some (rp_sessionId p)) then
        match sv_retrieve svc (h ++ [(CRetrieve p, false)]) (pop_sessionId p) with
        | Ok response =>
            (Ok (response, true),
             [(CRetrieve p, false); (CRetrieve (pop_sessionId p), true)])
        | Raise e' =>
            (Raise e',
             [(CRetrieve p, false); (CRetrieve (pop_sessionId p), false)])
        end
      else (Raise e, [(CRetrieve p, false)])
  end.
Proof.
  unfold perform_retrieve_and_generate.
  rewrite try_except_run, bind_run. unfold retrieve_and_generate at 1.
  destruct (sv_retrieve svc h p) as [response|e]; [done|].
  destruct e as [code message| | | | |]; simpl; try done.
  destruct (is_invalid_session _ _); simpl; [|done].
  destruct (rp_sessionId p) as [old|]; simpl; [|done].
  rewrite bind_run. unfold retrieve_and_generate.
  by destruct (sv_retrieve svc _ (pop_sessionId p)).
Qed.

Lemma perform_first_call svc p h :
  exists ok rest,
    (perform_retrieve_and_generate svc p h).2 = (CRetrieve p, ok) :: rest.
Proof.
  rewrite perform_run. destruct (sv_retrieve svc h p) as [r|e]; [by eexists _, _|].
  destruct (_ && _); [|by eexists _, _].
  destruct (sv_retrieve svc _ (pop_sessionId p)); by eexists _, _.
Qed.

Lemma str_prefix_occurs part text :
  str_prefix part text = true <-> exists after, text = part +:+ after.
Proof.
  revert text. induction part as [|a part IH]; intros text.
  - split; [intros _; by exists text|done].
  - destruct text as [|b text]; cbn [str_prefix].
    { split; [done|]. by intros [after [=]]. }
    rewrite andb_true_iff, IH. split.
    + intros [Hab [after ->]]. exists after.
      destruct (Ascii.eqb_spec a b) as [->|]; done.
    + intros [after [= <- ->]]. split; [apply Ascii.eqb_refl|by exists after].
Qed.

(** [part in text] holds exactly when [part] occurs in [text]. *)
Lemma str_in_occurs part text :
  str_in part text = true <-> occurs_in part text.
Proof.
  unfold occurs_in. induction text as [|b text IH]; cbn [str_in].
  - rewrite orb_false_r, str_prefix_occurs. split.
    + intros [after ->]. by exists EmptyString, after.
    + intros ([|c before] & after & Heq); [by exists after|done].
  - rewrite orb_true_iff, str_prefix_occurs, IH. split.
    + intros [[after ->]|(before & after & ->)].
      * by exists EmptyString, after.
      * by exists (String b before), after.
    + intros ([|c before] & after & Heq).
      * left. by exists after.
      * right. injection Heq as <- ->. by exists before, after.
Qed.

(** The failures that the executor recovers from are the validation errors
    that name an unknown session, and no others. *)
Lemma session_not_recognized_spec e :
  session_not_recognized e = true <-> unknown_session_error e.
Proof.
  unfold unknown_session_error. destruct e as [code message| | | | |];
    cbn [session_not_recognized]; try (split; [done|by intros (? & ? & _)]).
  unfold is_invalid_session. rewrite !andb_true_iff, !str_in_occurs. split.
  - intros [[Hcode Hvalid] Hsession].
    destruct code as [code|]; cbn [from_option id] in Hcode; [|done].
    apply String.eqb_eq in Hcode as ->.
    destruct message as [message|]; cbn [from_option id] in *.
    + by exists message.
    + by destruct Hvalid as ([|??] & ? & ?).
  - intros (m & [= -> ->] & Hvalid & Hsession). by rewrite String.eqb_refl.
Qed.

(** C2. An attempt that succeeds is returned as it is, after one call.  An
    attempt that fails with a validation error whose message names an
    unknown session (error code [ValidationException], a message in which
    both "is not valid" and "Session with Id" occur), when a [sessionId] was
    supplied, is retried once with the same parameters less the [sessionId]:
    exactly two calls are made and the outcome of the second is the outcome
    of the executor, a failure of the retry being raised to the caller.
    Every other failure, including such an error when no [sessionId] was
    supplied, is raised to the caller after the single call.  No run makes
    more than two calls. *)
Theorem perform_retrieve_and_generate_recovery svc (p : RetrieveParams) (h : History) :
  let res := perform_retrieve_and_generate svc p h in
  match sv_retrieve svc h p with
  | Ok response => res = (Ok (response, false), [(CRetrieve p, true)])
  | Raise e =>
      (unknown_session_error e -> is_Some (rp_sessionId p) ->
       match sv_retrieve svc (h ++ [(CRetrieve p, false)]) (pop_sessionId p) with
       | Ok response =>
           res = (Ok (response, true),
                  [(CRetrieve p, false); (CRetrieve (pop_sessionId p), true)])
       | Raise e' =>
           res = (Raise e',
                  [(CRetrieve p, false); (CRetrieve (pop_sessionId p), false)])
       end)
      /\ (~ (unknown_session_error e /\ is_Some (rp_sessionId p)) ->
          res = (Raise e, [(CRetrieve p, false)]))
  end
  /\ (length (retrieve_calls res.2) <= 2)%nat
  /\ rp_sessionId (pop_sessionId p) = None
  /\ rp_filter (pop_sessionId p) = rp_filter p
  /\ rp_input_text (pop_sessionId p) = rp_input_text p
  /\ rp_knowledgeBaseId (pop_sessionId p) = rp_knowledgeBaseId p.
Proof.
  intros res. subst res. rewrite perform_run.
  split; [|split; [|done]].
  - destruct (sv_retrieve svc h p) as [response|e]; [done|].
    destruct (session_not_recognized e) eqn:Hsession.
    + apply session_not_recognized_spec in Hsession.
      case_bool_decide as Hsupplied; cbn [andb].
      * split; [intros _ _; by destruct (sv_retrieve svc _ (pop_sessionId p))|].
        intros Hnot. by destruct Hnot.
      * split; [|done]. intros _ Hs. by destruct Hsupplied.
    + cbn [andb]. split; [|done].
      intros Hunknown%session_not_recognized_spec. congruence.
  - destruct (sv_retrieve svc h p) as [response|e]; [simpl; lia|].
    destruct (_ && _); [|simpl; lia].
    destruct (sv_retrieve svc _ (pop_sessionId p)); simpl; lia.
Qed.

(** ** Query scoping *)

Lemma item_ids_run (items : list item) :
  item_ids items =
  if bool_decide (Forall (fun it : item => is_Some (it !! "id")) items)
  then Ok (map (fun it => dict_get it "id") items)
  else Raise (KeyError "id").
Proof.
  induction items as [|it items IH]; [done|].
  cbn [item_ids]. unfold getitem, dict_get at 1.
  destruct (it !! "id") as [i|] eqn:Hid.
  - rewrite IH. case_bool_decide as H1.
    + rewrite bool_decide_eq_true_2; [by cbn; rewrite Hid|].
      constructor; [by rewrite Hid|done].
    + rewrite bool_decide_eq_false_2; [done|]. intros H2. apply H1.
      by apply Forall_cons in H2 as [_ ?].
  - rewrite bool_decide_eq_false_2; [done|]. intros H2.
    apply Forall_cons in H2 as [[? H2] _]. by rewrite Hid in H2.
Qed.

Lemma get_file_ids_run svc env tenant_id project_id h :
  get_file_ids svc env tenant_id project_id h =
  match PROJECT_FILES_TABLE env with
  | None => (Raise (KeyError "PROJECT_FILES_TABLE"), [])
  | Some table =>
      let cond := [("tenantId", VStr tenant_id); ("projectId", project_id)] in
      let answer := sv_query svc h table "tenantId-projectId-index" cond in
      (match answer with
       | PFail e => Raise e
       | _ => match page_Items answer with
              | None => Raise TypeError
              | Some items => item_ids items
              end
       end,
       [(CQuery table "tenantId-projectId-index" cond None None, negb (is_PFail answer))])
  end.
Proof.
  unfold get_file_ids. rewrite bind_run, lift_result_run.
  destruct (PROJECT_FILES_TABLE env) as [table|]; [|done]. cbn [required].
  rewrite bind_run, app_nil_r. unfold table_query, query_page. cbv zeta.
  destruct (sv_query svc h table _ _) as [e|items|items lek rest]; cbn [fst snd];
    try done.
  all: destruct items as [items|]; cbn [page_Items]; run; by rewrite ?app_nil_r.
Qed.

(** The file ids that the lookup resolves are the [id]s of the items that
    the store returns for the project in the tenant's partition of the
    project index. *)
Lemma get_file_ids_ok_inv svc env tenant_id project_id h files tr0 :
  get_file_ids svc env tenant_id project_id h = (Ok files, tr0) ->
  exists table items,
    PROJECT_FILES_TABLE env = Some table
    /\ page_Items (sv_query svc h table "tenantId-projectId-index"
                     [("tenantId", VStr tenant_id); ("projectId", project_id)])
       = Some items
    /\ files = map (fun it : item => dict_get it "id") items.
Proof.
  rewrite get_file_ids_run.
  destruct (PROJECT_FILES_TABLE env) as [table|]; [|done]. cbv zeta.
  intros [= Hfiles _]. exists table.
  destruct (sv_query svc h table _ _) as [e|items|items lek rest]; [done|..];
    cbn [page_Items] in *; (destruct items as [items|]; [|done]);
    rewrite item_ids_run in Hfiles; case_bool_decide; [|done| |done];
    exists items; by simplify_eq.
Qed.

Lemma query_attempt_emits svc env event user_id tenant_id project_id session_id p :
  emits (fun ev => match ev.1 with
                   | CRetrieve q => q = p \/ q = pop_sessionId p
                   | _ => False
                   end)
        (query_attempt svc env event user_id tenant_id project_id session_id p).
Proof.
  unfold query_attempt.
  apply emits_try_except; [|intros ?; apply emits_ret].
  apply emits_bind.
  - eapply emits_impl; [|apply perform_emits].
    intros [c ok] [Hev|Hev]; simpl in *; subst c; auto.
  - intros rs.
    repeat first [apply update_chat_history_emits | emits_step].
Qed.

Lemma record_turn_emits svc env event user_id tenant_id project_id query file_ids response :
  emits (fun ev => match ev.1 with CTime _ | CUuid _ | CPut _ _ => True | _ => False end)
        (record_turn svc env event user_id tenant_id project_id query file_ids response).
Proof.
  unfold record_turn.
  repeat first
    [ eapply emits_impl; [|apply save_chat_message_emits];
      intros [[] ?]; simpl; done
    | emits_step ]; done.
Qed.

Lemma handle_query_after_files rt svc env event user_id tenant_id h body kb :
  py_json_loads rt (event_body event) = Ok (VDict body) ->
  truthy (dict_get body "query") = true ->
  configured (KNOWLEDGE_BASE_ID env) = Some kb ->
  truthy (requested_project event body) = true ->
  handle_query rt svc env event user_id tenant_id h =
  bind (get_file_ids svc env tenant_id (requested_project event body))
       (fun file_ids =>
          match file_ids with
          | [] => ret (create_response event 404 (BError "No files found for this project"))
          | _ :: _ =>
              let* outcome :=
                query_attempt svc env event user_id tenant_id
                  (requested_project event body) (requested_session event body)
                  (build_retrieve_params (dict_get body "query") kb 5
                     (kb_filter tenant_id (requested_project event body) file_ids)
                     (requested_session event body)) in
              match outcome with
              | inr error_response => ret error_response
              | inl response =>
                  record_turn svc env event user_id tenant_id
                    (requested_project event body) (dict_get body "query")
                    file_ids response
              end
          end) h.
Proof.
  intros Hbody Hquery Hkb Hproject. unfold handle_query.
  rewrite bind_run, lift_result_run, Hbody. simpl.
  rewrite bind_run, lift_result_run. simpl.
  rewrite Hquery, Hkb. simpl.
  fold (requested_project event body). rewrite Hproject. simpl.
  fold (requested_session event body).
  rewrite !app_nil_r.
  by destruct (bind _ _ h).
Qed.

Lemma handle_query_calls_filtered rt svc env event user_id tenant_id h p ok :
  (CRetrieve p, ok) ∈ (handle_query rt svc env event user_id tenant_id h).2 ->
  exists body files tr0,
    py_json_loads rt (event_body event) = Ok (VDict body) /\
    get_file_ids svc env tenant_id (requested_project event body) h = (Ok files, tr0) /\
    files <> [] /\
    rp_filter p = FAndAll [ FEquals "tenantId" (VStr tenant_id);
                            FEquals "projectId" (requested_project event body);
                            FIn "fileId" files ].
Proof.
  unfold handle_query.
  rewrite bind_run, lift_result_run.
  destruct (py_json_loads rt (event_body event)) as [parsed|e]; simpl;
    [|by intros ?%elem_of_nil].
  rewrite bind_run, lift_result_run.
  destruct parsed as [| | | | |body]; simpl; try by intros ?%elem_of_nil.
  destruct (truthy (dict_get body "query")); simpl; [|by intros ?%elem_of_nil].
  destruct (configured (KNOWLEDGE_BASE_ID env)) as [kb|]; simpl;
    [|by intros ?%elem_of_nil].
  fold (requested_project event body).
  destruct (truthy (requested_project event body)); simpl; [|by intros ?%elem_of_nil].
  rewrite bind_run, !app_nil_r.
  pose proof (get_file_ids_emits svc env tenant_id (requested_project event body) h) as Hq.
  destruct (get_file_ids svc env tenant_id (requested_project event body) h)
    as [[files|e] tr0] eqn:Hg; simpl in *; [|by intros ?%not_retrieve_of_query].
  destruct files as [|f fs]; simpl.
  { rewrite app_nil_r. by intros ?%not_retrieve_of_query. }
  intros [Hin|Hin]%elem_of_app; [by apply not_retrieve_of_query in Hin|].
  exists body, (f :: fs), tr0. do 3 (split; [done|]).
  revert Hin.
  match goal with |- _ ∈ (?m _).2 -> _ =>
    assert (emits (fun ev => forall q, ev.1 = CRetrieve q ->
              rp_filter q = kb_filter tenant_id (requested_project event body) (f :: fs)) m)
      as Hm
  end.
  { apply emits_bind.
    - eapply emits_impl; [|apply query_attempt_emits].
      intros [c o] Hc q Hq'. simpl in *. subst c. by destruct Hc as [-> | ->].
    - intros [response|error_response]; [|apply emits_ret].
      eapply emits_impl; [|apply record_turn_emits].
      intros [c o] Hc q Hq'. simpl in *. by subst c. }
  intros Hin. specialize (Hm (h ++ tr0)). rewrite Forall_forall in Hm.
  by apply (Hm _ Hin).
Qed.

(** C1. Every [retrieve_and_generate] call that [handle_query] makes, on any
    execution path, carries the filter [andAll [equals tenantId T; equals
    projectId P; in fileId files(P)]], where [files(P)] is the non-empty
    list of the ids of the items that the store returned for [P] in the
    partition of [T] of the project index; a request that reaches the scoper
    with a non-empty file set does make the call, and one whose resolved
    file set is empty is answered 404 after the file lookup alone, without
    any call to the retrieval service. *)
Theorem handle_query_scoped rt svc env event user_id tenant_id h :
  let res := handle_query rt svc env event user_id tenant_id h in
  (forall p ok, (CRetrieve p, ok) ∈ res.2 ->
     exists body files tr0,
       py_json_loads rt (event_body event) = Ok (VDict body) /\
       get_file_ids svc env tenant_id (requested_project event body) h = (Ok files, tr0) /\
       files <> [] /\
       rp_filter p = FAndAll [ FEquals "tenantId" (VStr tenant_id);
                               FEquals "projectId" (requested_project event body);
                               FIn "fileId" files ] /\
       exists table items,
         PROJECT_FILES_TABLE env = Some table /\
         page_Items (sv_query svc h table "tenantId-projectId-index"
                       [("tenantId", VStr tenant_id);
                        ("projectId", requested_project event body)]) = Some items /\
         files = map (fun it : item => dict_get it "id") items)
  /\
  (forall body files tr0,
     py_json_loads rt (event_body event) = Ok (VDict body) ->
     truthy (dict_get body "query") = true ->
     is_Some (configured (KNOWLEDGE_BASE_ID env)) ->
     truthy (requested_project event body) = true ->
     get_file_ids svc env tenant_id (requested_project event body) h = (Ok files, tr0) ->
     match files with
     | [] =>
         res = (Ok (create_response event 404 (BError "No files found for this project")), tr0)
         /\ retrieve_calls tr0 = []
     | _ :: _ =>
         exists p ok rest,
           res.2 = tr0 ++ (CRetrieve p, ok) :: rest /\
           rp_filter p = FAndAll [ FEquals "tenantId" (VStr tenant_id);
                                   FEquals "projectId" (requested_project event body);
                                   FIn "fileId" files ]
     end).
Proof.
  intros res. split.
  { intros p ok Hin.
    destruct (handle_query_calls_filtered _ _ _ _ _ _ _ _ _ Hin)
      as (body & files & tr0 & Hbody & Hfiles & Hne & Hfilter).
    exists body, files, tr0. do 4 (split; [done|]).
    by eapply get_file_ids_ok_inv. }
  intros body files tr0 Hbody Hquery [kb Hkb] Hproject Hfiles. subst res.
  rewrite (handle_query_after_files _ _ _ _ _ _ _ _ _ Hbody Hquery Hkb Hproject).
  rewrite bind_run, Hfiles.
  pose proof (get_file_ids_emits svc env tenant_id (requested_project event body) h) as Hq.
  rewrite Hfiles in Hq. simpl in Hq.
  destruct files as [|f fs].
  - simpl. rewrite app_nil_r. split; [done|].
    unfold retrieve_calls. clear Hfiles. induction Hq as [|[c o] tr Hc _ IH]; [done|].
    destruct c; try done.
  - cbv zeta. unfold query_attempt.
    match goal with |- context [perform_retrieve_and_generate svc ?p] =>
      destruct (perform_first_call svc p (h ++ tr0)) as (ok & rest & Hfirst);
      exists p, ok
    end.
    match goal with |- context [bind (try_except (bind ?m ?k1) ?hd) ?k2 ?h'] =>
      destruct (bind_trace_prefix (try_except (bind m k1) hd) k2 h') as [r1 ->];
      destruct (try_except_trace_prefix (bind m k1) hd h') as [r2 ->];
      destruct (bind_trace_prefix m k1 h') as [r3 ->]
    end.
    rewrite Hfirst. exists (rest ++ r3 ++ r2 ++ r1). split; [|done].
    simpl. by rewrite <- !app_assoc.
Qed.

(** ** Chat History Ledger: retrieval and bulk delete *)

(** C10. The retrieval of the chat history does not raise to its caller:
    it is its scan under an [except] clause that answers every exception
    with the empty list; the scan fails (at the lookup of
    [dynamodb.conditions], before a request is sent), so the empty list is
    returned.  The bulk delete of an empty list succeeds without a request
    to the store, so [delete_chat_session] reports success and the DELETE
    endpoint answers 200 with the confirmation message, although the
    retrieval failed and nothing was deleted: the endpoint has made no call
    at all, whatever the ledger holds. *)
Theorem delete_session_confirms_after_failed_retrieval
    svc env event user_id tenant_id project_id h table :
  CHAT_HISTORY_TABLE env = Some table ->
  project_id <> EmptyString ->
  (exists e, scan_chat_history svc table tenant_id user_id h = (Raise e, []))
  /\ get_chat_history_by_tenant_user svc env tenant_id user_id h
     = try_except (scan_chat_history svc table tenant_id user_id) (fun _ => ret []) h
  /\ get_chat_history_by_tenant_user svc env tenant_id user_id h = (Ok [], [])
  /\ (forall h', batch_delete_items svc table [] h' = (Ok true, []))
  /\ delete_chat_session svc env tenant_id project_id user_id h = (Ok true, [])
  /\ handle_delete_session svc env event user_id tenant_id project_id h
     = (Ok (create_response event 200
              (BMessage ("Project " +:+ project_id +:+
                         " chat history deleted successfully"))), []).
Proof.
  intros Htable Hproject.
  split; [by exists AttributeError|].
  split.
  { unfold get_chat_history_by_tenant_user. rewrite bind_run, Htable.
    cbn [required lift_result fst snd app]. rewrite app_nil_r.
    by destruct (try_except _ _ h). }
  split; [by rewrite get_chat_history_run, Htable|].
  split; [intros h'; apply batch_delete_items_nil|].
  assert (delete_chat_session svc env tenant_id project_id user_id h = (Ok true, []))
    as Hdel by (by rewrite delete_chat_session_run, Htable).
  split; [done|].
  unfold handle_delete_session.
  destruct (String.eqb_spec project_id EmptyString); [done|].
  by rewrite bind_run, Hdel.
Qed.

(** ** Expiry reaper *)

Import CleanupKnowledgeBase.

Lemma count_true_cons b l :
  count_true (b :: l) = ((if b then 1 else 0) + count_true l)%nat.
Proof. by destruct b. Qed.

Lemma count_false_cons b l :
  count_false (b :: l) = ((if b then 0 else 1) + count_false l)%nat.
Proof. by destruct b. Qed.

Lemma delete_attempt_run svc kb ds file_id h :
  try_except
    (let* client_token := uuid4 svc in
     write svc (CDeleteDoc kb ds client_token file_id) ;; ret true)
    (fun _ => ret false) h =
  let token := sv_uuid svc h in
  let ok := bool_decide (sv_write svc (h ++ [(CUuid token, true)])
                           (CDeleteDoc kb ds token file_id) = None) in
  (Ok ok, [(CUuid token, true); (CDeleteDoc kb ds token file_id, ok)]).
Proof.
  rewrite try_except_run, bind_run. unfold uuid4 at 1. cbv zeta.
  rewrite bind_run. unfold write.
  by destruct (sv_write svc _ _).
Qed.

Lemma process_records_run svc kb ds records processed_count error_count h :
  let res := process_records svc kb ds records processed_count error_count h in
  delete_calls res.2 = map (fun r => key_S r "id") (filter (fun r => qualifies r = true) records)
  /\ delete_targets res.2 = map (fun _ => (kb, ds)) (filter (fun r => qualifies r = true) records)
  /\ res.1 = Ok ((processed_count + count_true (delete_outcomes res.2))%nat,
                 (error_count + count_false (delete_outcomes res.2))%nat).
Proof.
  revert processed_count error_count h.
  induction records as [|record records IH]; intros processed_count error_count h.
  { simpl. by rewrite !Nat.add_0_r. }
  cbn [process_records].
  destruct (is_remove record) eqn:E1;
    [|rewrite filter_cons_False by (unfold qualifies; by rewrite E1); apply IH].
  destruct (is_ttl_expiry record) eqn:E2;
    [|rewrite filter_cons_False by (unfold qualifies; by rewrite E1, E2); apply IH].
  destruct (truthy (key_S record "id")) eqn:E3;
    [|rewrite filter_cons_False by (unfold qualifies; by rewrite E1, E2, E3); apply IH].
  destruct (truthy (key_S record "tenantId")) eqn:E4;
    [|rewrite filter_cons_False by (unfold qualifies; by rewrite E1, E2, E3, E4); apply IH].
  rewrite filter_cons_True by (unfold qualifies; by rewrite E1, E2, E3, E4).
  cbn [negb].
  rewrite bind_run, delete_attempt_run. cbv zeta.
  destruct (bool_decide _).
  - specialize (IH (S processed_count) error_count).
    match goal with |- context [process_records _ _ _ _ _ _ ?h'] =>
      destruct (IH h') as (IH1 & IH2 & IH3); clear IH;
      destruct (process_records svc kb ds records (S processed_count) error_count h')
        as [r tr]
    end.
    simpl in *. rewrite IH1, IH2, IH3. repeat split.
    rewrite count_true_cons, count_false_cons. simpl. do 2 f_equal; lia.
  - specialize (IH processed_count (S error_count)).
    match goal with |- context [process_records _ _ _ _ _ _ ?h'] =>
      destruct (IH h') as (IH1 & IH2 & IH3); clear IH;
      destruct (process_records svc kb ds records processed_count (S error_count) h')
        as [r tr]
    end.
    simpl in *. rewrite IH1, IH2, IH3. repeat split.
    rewrite count_true_cons, count_false_cons. simpl. do 2 f_equal; lia.
Qed.

Lemma delete_outcomes_length tr :
  length (delete_outcomes tr) = length (delete_calls tr).
Proof.
  induction tr as [|[c ok] tr IH]; [done|].
  unfold delete_outcomes, delete_calls in *. destruct c; simpl; auto.
Qed.

Lemma count_true_false l : (count_true l + count_false l)%nat = length l.
Proof.
  induction l as [|b l IH]; [done|].
  rewrite count_true_cons, count_false_cons. destruct b; simpl; lia.
Qed.

Lemma key_S_string record k :
  key_S record k = default VNone (key_string record k).
Proof.
  unfold key_S, key_string, dict_get.
  destruct (dynamodb record) as [data|]; cbn [from_option id sd_Keys]; [|done].
  destruct (sd_Keys data) as [keys|]; cbn [from_option id]; [|done].
  by destruct (keys !! k).
Qed.

(** The checks of the loop select the system-initiated removals, and the
    id that the loop reads from a selected record is its file id. *)
Lemma expired_file_id_qualifies record :
  expired_file_id record
  = if qualifies record then Some (key_S record "id") else None.
Proof.
  unfold expired_file_id, qualifies, is_remove, is_ttl_expiry.
  rewrite !key_S_string.
  destruct (eventName record) as [name|]; [|done].
  destruct (userIdentity record) as [[ty principal]|]; cbn [from_option id ui_type ui_principalId].
  2: { rewrite andb_false_r. by repeat case_match. }
  destruct (key_string record "id") as [file_id|]; cbn [from_option id truthy].
  2: { rewrite andb_false_r. by repeat case_match. }
  destruct (key_string record "tenantId") as [tenant_id|]; cbn [from_option id truthy].
  2: { by rewrite andb_false_r. }
  destruct ty as [ty|], principal as [principal|];
    try (rewrite bool_decide_eq_false_2 by (by intros (_ & ? & ?));
         cbn [andb]; by rewrite ?andb_false_r).
  destruct (String.eqb_spec name "REMOVE") as [->|Hname];
    destruct (String.eqb_spec ty "Service") as [->|Hty];
    destruct (String.eqb_spec principal "dynamodb.amazonaws.com") as [->|Hprincipal];
    cbn [andb];
    try (rewrite bool_decide_eq_false_2 by (intros (? & ? & ?); by simplify_eq); done).
  by rewrite bool_decide_eq_true_2.
Qed.

Lemma expired_file_id_spec record file_id :
  expired_file_id record = Some file_id <-> system_removal record file_id.
Proof.
  unfold expired_file_id, system_removal. split.
  - destruct (eventName record) as [name|]; [|done].
    destruct (userIdentity record) as [actor|]; [|done].
    destruct (key_string record "id") as [f|]; [|done].
    destruct (key_string record "tenantId") as [t|]; [|done].
    case_bool_decide as Hactor; cbn [andb]; [|done].
    destruct Hactor as (-> & Hty & Hprincipal).
    destruct (truthy f) eqn:Hf; cbn [andb]; [|done].
    destruct (truthy t) eqn:Ht; [|done].
    intros [= <-]. split; [done|]. split; [by exists actor|].
    split; [done|]. split; [done|]. by exists t.
  - intros (-> & (actor & -> & Hty & Hprincipal) & -> & Hf & t & -> & Ht).
    by rewrite bool_decide_eq_true_2, Hf, Ht.
Qed.

Lemma expired_file_ids_filter (records : list StreamRecord) :
  omap expired_file_id records
  = map (fun r => key_S r "id") (filter (fun r => qualifies r = true) records).
Proof.
  induction records as [|record records IH]; [done|].
  cbn [omap list_omap]. rewrite expired_file_id_qualifies, filter_cons.
  destruct (qualifies record) eqn:Hq.
  - rewrite decide_True by done. cbn. by rewrite <- IH.
  - rewrite decide_False by done. apply IH.
Qed.

(** C5. In a configured deployment the reaper issues one document deletion
    for each record of the batch that is a system-initiated removal (event
    [REMOVE], actor of type [Service] with the principal
    [dynamodb.amazonaws.com]) carrying a file id and a tenant id, for that
    file id and in the order of the batch, and none for any other record;
    this holds whatever the outcome of each deletion, so a failed deletion
    does not stop the later ones.  Every deletion names the configured
    knowledge base and data source.  The handler answers 200 with the
    numbers of successful and failed deletions, which add up to the number
    of such records; a batch without records is answered 200 as well. *)
Theorem lambda_handler_isolates_failures svc env event h kb ds :
  configured (KNOWLEDGE_BASE_ID env) = Some kb ->
  configured (DATA_SOURCE_ID env) = Some ds ->
  is_Some (configured (KNOWLEDGE_BASE_FILES_TABLE env)) ->
  let res := lambda_handler svc env event h in
  let expired := omap expired_file_id (default [] (Records event)) in
  (forall record file_id,
     expired_file_id record = Some file_id <-> system_removal record file_id)
  /\ delete_calls res.2 = expired
  /\ delete_targets res.2 = map (fun _ => (kb, ds)) expired
  /\ length (delete_outcomes res.2) = length expired
  /\ (count_true (delete_outcomes res.2) + count_false (delete_outcomes res.2))%nat
     = length expired
  /\ (res.1 = Ok {| r_statusCode := 200;
                    r_body := RProcessed (count_true (delete_outcomes res.2))
                                         (count_false (delete_outcomes res.2)) |}
      \/ (Records event = None \/ Records event = Some [])
         /\ res = (Ok {| r_statusCode := 200; r_body := RNoRecords |}, [])).
Proof.
  intros Hkb Hds [tbl Htbl] res expired.
  split; [apply expired_file_id_spec|].
  assert (delete_calls res.2 = expired
          /\ delete_targets res.2 = map (fun _ => (kb, ds)) expired
          /\ (res.1 = Ok {| r_statusCode := 200;
                            r_body := RProcessed (count_true (delete_outcomes res.2))
                                                 (count_false (delete_outcomes res.2)) |}
              \/ (Records event = None \/ Records event = Some [])
                 /\ res = (Ok {| r_statusCode := 200; r_body := RNoRecords |}, [])))
    as (Hcalls & Htargets & Hres).
  { subst res expired. unfold lambda_handler.
    rewrite try_except_run, Hkb, Hds, Htbl.
    destruct (Records event) as [[|r rs]|] eqn:Hrec;
      [split; [done|split; [done|right; split; [by right|done]]] | |
       split; [done|split; [done|right; split; [by left|done]]]].
    change (default [] (Some (r :: rs))) with (r :: rs). cbv iota.
    rewrite bind_run, expired_file_ids_filter.
    destruct (process_records_run svc kb ds (r :: rs) 0 0 h) as (H1 & H2 & H3).
    destruct (process_records svc kb ds (r :: rs) 0 0 h) as [res tr].
    cbn [fst snd] in H1, H2, H3. subst res. cbn [fst snd ret].
    rewrite app_nil_r.
    split; [done|]. split; [by rewrite map_map|by left]. }
  split; [done|]. split; [done|].
  rewrite <- Hcalls.
  split; [apply delete_outcomes_length|].
  split; [|done].
  by rewrite count_true_false, delete_outcomes_length.
Qed.

(** ** Ingestion *)

Import CheckKnowledgeBaseStatus.

Lemma bind_ok_inv {A B} (m : M A) (k : A -> M B) h b tr :
  bind m k h = (Ok b, tr) ->
  exists a es es', m h = (Ok a, es) /\ k a (h ++ es) = (Ok b, es') /\ tr = es ++ es'.
Proof.
  rewrite bind_run. destruct (m h) as [[a|e] es]; [|done].
  destruct (k a (h ++ es)) as [r es'] eqn:Hk. simpl.
  intros [= -> <-]. by exists a, es, es'.
Qed.

Lemma ingest_files_ttl rt svc env user_id tenant_id project_id files h :
  ingest_files rt svc env user_id tenant_id project_id files h =
  match files_ttl_hours rt env tenant_id with
  | Ok hours =>
      let t0 := sv_time svc h in
      let r := for_each files
                 (ingest_file rt svc env user_id tenant_id project_id (t0 + hours * 3600))
                 (h ++ [(CTime t0, true)]) in
      (r.1, (CTime t0, true) :: r.2)
  | Raise _ => ingest_files rt svc env user_id tenant_id project_id files h
  end.
Proof.
  unfold files_ttl_hours.
  destruct (py_json_loads rt (TENANTS env)) as [parsed|e1] eqn:H1; [|done].
  destruct (subscript parsed "Tenants") as [tenants|e2] eqn:H2; [|done].
  destruct (find_tenant tenant_id tenants) as [tenant|e3] eqn:H3; [|done].
  destruct (subscript tenant "FilesTTLHours") as [hv|e4] eqn:H4; [|done].
  destruct (py_int rt hv) as [hours|e5] eqn:H5; [|done].
  unfold ingest_files.
  rewrite bind_run, try_except_run.
  run. rewrite H1. run. rewrite H2. run. rewrite H3. run. rewrite H4. run.
  rewrite H5. run.
  rewrite !app_nil_r. cbn [app].
  destruct (for_each files _ _) as [[[]|e] tr]; [done|].
  run. by rewrite app_nil_r.
Qed.

Lemma ingest_files_config_error rt svc env user_id tenant_id project_id files h e :
  files_ttl_hours rt env tenant_id = Raise e ->
  exists e' tr,
    ingest_files rt svc env user_id tenant_id project_id files h = (Raise e', tr)
    /\ Forall (fun ev : Call * bool => exists t, ev.1 = CTime t) tr.
Proof.
  unfold files_ttl_hours, ingest_files. intros Hcfg.
  rewrite bind_run, try_except_run. run.
  destruct (py_json_loads rt (TENANTS env)) as [parsed|e1].
  2: { destruct e1; run; by eexists _, _. }
  run. destruct (subscript parsed "Tenants") as [tenants|e2].
  2: { destruct e2; run; by eexists _, _. }
  run. destruct (find_tenant tenant_id tenants) as [tenant|e3].
  2: { destruct e3; run; by eexists _, _. }
  run. destruct (subscript tenant "FilesTTLHours") as [hv|e4].
  2: { destruct e4; run; eexists _, _; (split; [done|]);
       rewrite !app_nil_r; repeat constructor; by eexists. }
  run. rewrite Hcfg.
  destruct e; run; eexists _, _; (split; [done|]);
    rewrite !app_nil_r; repeat constructor; by eexists.
Qed.

Lemma clock_only_no_writes (tr : History) table :
  Forall (fun ev : Call * bool => exists t, ev.1 = CTime t) tr ->
  Forall (fun ev => is_mutation ev.1 = false) tr
  /\ put_requests table tr = [] /\ ingest_calls tr = [].
Proof.
  induction 1 as [|[c ok] tr [t Hc] _ (IH1 & IH2 & IH3)]; [done|].
  simpl in Hc. subst c. split; [by constructor|]. by split.
Qed.

(** C7. When the tenant configuration is absent, cannot be parsed, does not
    contain the tenant id, or is malformed in any other way that makes the
    retention lookup fail, [ingest_files] raises before its loop: no
    FileRecord is written and no document is submitted. *)
Theorem ingest_files_fails_fast rt svc env user_id tenant_id project_id files h :
  (TENANTS env = None
   \/ (exists s, TENANTS env = Some s /\ json_loads rt s = None)
   \/ (exists s parsed tenants,
         TENANTS env = Some s /\ json_loads rt s = Some parsed
         /\ subscript parsed "Tenants" = Ok tenants
         /\ find_tenant tenant_id tenants = Ok VNone)
   \/ (exists e, files_ttl_hours rt env tenant_id = Raise e)) ->
  let res := ingest_files rt svc env user_id tenant_id project_id files h in
  (exists e, res.1 = Raise e)
  /\ Forall (fun ev => is_mutation ev.1 = false) res.2
  /\ put_requests (KNOWLEDGE_BASE_FILES_TABLE env) res.2 = []
  /\ ingest_calls res.2 = [].
Proof.
  intros Hcfg res.
  assert (exists e, files_ttl_hours rt env tenant_id = Raise e) as [e He].
  { unfold files_ttl_hours, py_json_loads.
    destruct Hcfg as [-> | [(s & -> & ->) | [(s & parsed & tenants & -> & -> & -> & ->) | H]]];
      [by eexists.. | done]. }
  destruct (ingest_files_config_error rt svc env user_id tenant_id project_id files h e He)
    as (e' & tr & Hrun & Htr).
  subst res. rewrite Hrun. split; [by exists e'|].
  by apply clock_only_no_writes.
Qed.

Lemma ingest_file_ok rt svc env user_id tenant_id project_id ttl file h tr :
  ingest_file rt svc env user_id tenant_id project_id ttl file h = (Ok tt, tr) ->
  exists createdAt token,
    is_Some (file !! "id")
    /\ tr = [ (CTime createdAt, true);
              (CPut (KNOWLEDGE_BASE_FILES_TABLE env)
                 (kb_file_record (dict_get file "id") user_id tenant_id project_id
                    createdAt ttl), true);
              (CUuid token, true);
              (CIngest (KNOWLEDGE_BASE_ID env) (DATA_SOURCE_ID env) token
                 (kb_document (dict_get file "id") (s3_uri rt file)
                    user_id tenant_id project_id), true) ].
Proof.
  unfold ingest_file, s3_uri, getitem, dict_get. run.
  destruct (file !! "id") as [file_id|]; [|done].
  run. rewrite !app_nil_r. rewrite write_run.
  destruct (sv_write svc _ _); [done|].
  run. rewrite write_run.
  destruct (sv_write svc _ _); [done|].
  cbn [fst snd app]. intros [= <-]. by eexists _, _.
Qed.

Lemma time_readings_app tr1 tr2 :
  time_readings (tr1 ++ tr2) = time_readings tr1 ++ time_readings tr2.
Proof. apply omap_app. Qed.

Lemma put_requests_app table tr1 tr2 :
  put_requests table (tr1 ++ tr2) = put_requests table tr1 ++ put_requests table tr2.
Proof. apply omap_app. Qed.

Lemma stored_app table tr1 tr2 :
  stored table (tr1 ++ tr2) = stored table tr1 ++ stored table tr2.
Proof. unfold stored. by rewrite filter_app, put_requests_app. Qed.

Lemma ingest_calls_app tr1 tr2 :
  ingest_calls (tr1 ++ tr2) = ingest_calls tr1 ++ ingest_calls tr2.
Proof. apply omap_app. Qed.

Lemma put_requests_one table it ok :
  put_requests table [(CPut table it, ok)] = [it].
Proof. unfold put_requests. simpl. by rewrite bool_decide_eq_true_2. Qed.

Lemma stored_one table it :
  stored table [(CPut table it, true)] = [it].
Proof. unfold stored. rewrite filter_cons_True by done. apply put_requests_one. Qed.

Lemma stored_one_rejected table it :
  stored table [(CPut table it, false)] = [].
Proof. unfold stored. by rewrite filter_cons_False. Qed.

Lemma for_each_ingest_ok rt svc env user_id tenant_id project_id ttl files h tr :
  for_each files (ingest_file rt svc env user_id tenant_id project_id ttl) h = (Ok tt, tr) ->
  exists stamps : list Z,
    length stamps = length files
    /\ time_readings tr = stamps
    /\ put_requests (KNOWLEDGE_BASE_FILES_TABLE env) tr =
       zip_with (fun file createdAt =>
                   kb_file_record (dict_get file "id") user_id tenant_id project_id
                     createdAt ttl) files stamps
    /\ stored (KNOWLEDGE_BASE_FILES_TABLE env) tr =
       put_requests (KNOWLEDGE_BASE_FILES_TABLE env) tr
    /\ ingest_calls tr =
       map (fun file => kb_document (dict_get file "id") (s3_uri rt file)
                          user_id tenant_id project_id) files.
Proof.
  revert h tr. induction files as [|file files IH]; intros h tr.
  { intros [= <-]. by exists []. }
  simpl. intros (a & es & es' & Hfile & Hrest & ->)%bind_ok_inv.
  destruct a.
  apply ingest_file_ok in Hfile as (createdAt & token & _ & ->).
  apply IH in Hrest as (stamps & Hlen & Htimes & Hputs & Hstored & Hdocs).
  exists (createdAt :: stamps).
  set (T := KNOWLEDGE_BASE_FILES_TABLE env) in *.
  split; [simpl; by rewrite Hlen|].
  rewrite time_readings_app, put_requests_app, stored_app, ingest_calls_app.
  rewrite Htimes, Hstored, Hputs, Hdocs.
  match goal with |- context [put_requests T ((?e1 :: (CPut T ?it, true) :: ?e3 :: ?e4 :: [])) ] =>
    change (e1 :: (CPut T it, true) :: e3 :: e4 :: [])
      with ([e1] ++ [(CPut T it, true)] ++ [e3; e4]);
    rewrite !put_requests_app, !stored_app, put_requests_one, stored_one
  end.
  done.
Qed.

(** C4, as the code has it.  A successful ingestion run over N registered
    files, with the tenant's retention of [hours] hours, reads the clock once
    before the loop ([t0]) and once per file ([createdAt]); it writes N
    FileRecords, all accepted, each with [documentStatus = ready], the
    [createdAt] read for that file and the same [ttl = t0 + hours * 3600];
    and it submits N documents, each carrying the tags [userId], [tenantId],
    [projectId] and [fileId].  So [ttl = createdAt + hours * 3600] holds for
    a record exactly when its [createdAt] reading equals [t0]. *)
Theorem ingest_files_records rt svc env user_id tenant_id project_id files h hours tr :
  files_ttl_hours rt env tenant_id = Ok hours ->
  ingest_files rt svc env user_id tenant_id project_id files h = (Ok tt, tr) ->
  let t0 := sv_time svc h in
  let ttl := t0 + hours * 3600 in
  let table := KNOWLEDGE_BASE_FILES_TABLE env in
  exists stamps : list Z,
    length stamps = length files
    /\ time_readings tr = t0 :: stamps
    /\ put_requests table tr =
       zip_with (fun file createdAt =>
                   kb_file_record (dict_get file "id") user_id tenant_id project_id
                     createdAt ttl) files stamps
    /\ stored table tr = put_requests table tr
    /\ ingest_calls tr =
       map (fun file => kb_document (dict_get file "id") (s3_uri rt file)
                          user_id tenant_id project_id) files
    /\ (forall file_id createdAt,
          let record := kb_file_record file_id user_id tenant_id project_id createdAt ttl in
          record !! "id" = Some file_id
          /\ record !! "documentStatus" = Some (VStr "ready")
          /\ record !! "createdAt" = Some (VInt createdAt)
          /\ record !! "ttl" = Some (VInt (t0 + hours * 3600))
          /\ (t0 + hours * 3600 = createdAt + hours * 3600 <-> createdAt = t0))
    /\ (forall file_id uri,
          doc_inlineAttributes (kb_document file_id uri user_id tenant_id project_id) =
          [ ("userId", VStr user_id); ("tenantId", VStr tenant_id);
            ("projectId", project_id); ("fileId", file_id) ]).
Proof.
  intros Hcfg Hrun t0 ttl table.
  rewrite ingest_files_ttl, Hcfg in Hrun. cbv zeta in Hrun. fold t0 ttl in Hrun.
  destruct (for_each files _ _) as [r tr'] eqn:Hloop.
  simpl in Hrun. injection Hrun as -> <-.
  apply for_each_ingest_ok in Hloop as (stamps & Hlen & Htimes & Hputs & Hstored & Hdocs).
  exists stamps. split; [done|].
  change ((CTime t0, true) :: tr') with ([(CTime t0, true)] ++ tr').
  rewrite time_readings_app, put_requests_app, stored_app, ingest_calls_app.
  subst table. rewrite Htimes, Hstored, Hputs, Hdocs.
  do 4 (split; [done|]).
  split; [|done].
  intros file_id createdAt. unfold kb_file_record. cbv zeta.
  repeat split; try by simplify_map_eq.
  all: lia.
Qed.

Lemma get_project_files_emits svc env user_id tenant_id project_id :
  emits (fun ev => is_query ev.1 = true)
        (get_project_files svc env user_id tenant_id project_id).
Proof. unfold get_project_files. repeat emits_step; done. Qed.

(** C8. An ingestion request that reaches the file lookup and whose project
    has no files, or whose file set cannot be resolved, is answered 400
    "Project requires files"; the handler has then made only the calls of the
    lookup itself: no FileRecord is written and no document is submitted. *)
Theorem handler_rejects_project_without_files rt svc env event h user_id tenant_id body :
  handle_options_request event = None ->
  get_user_tenant_from_claims event = Ok (user_id, tenant_id) ->
  py_json_loads rt (event_body event) = Ok (VDict body) ->
  is_Some (configured (KNOWLEDGE_BASE_ID env)) ->
  user_id <> EmptyString ->
  truthy (dict_get body "projectId") = true ->
  let lookup := get_project_files svc env user_id tenant_id (dict_get body "projectId") h in
  lookup.1 = Ok None \/ lookup.1 = Ok (Some []) ->
  let res := CheckKnowledgeBaseStatus.handler rt svc env event h in
  res.1 = Ok (create_response event 400 (BError "Project requires files"))
  /\ res.2 = lookup.2
  /\ Forall (fun ev => is_mutation ev.1 = false) res.2
  /\ put_requests (KNOWLEDGE_BASE_FILES_TABLE env) res.2 = []
  /\ ingest_calls res.2 = [].
Proof.
  intros Hopt Hclaims Hbody [kb Hkb] Huser Hproject lookup Hnone res.
  assert (res = (Ok (create_response event 400 (BError "Project requires files")), lookup.2))
    as ->.
  { subst res lookup. unfold CheckKnowledgeBaseStatus.handler.
    rewrite Hopt. run. rewrite Hclaims. run. rewrite Hbody. run. rewrite Hkb.
    cbn [fst snd as_dict]. run.
    destruct (String.eqb_spec user_id EmptyString); [done|].
    rewrite Hproject. cbn [negb]. run. rewrite !app_nil_r.
    destruct (get_project_files svc env user_id tenant_id (dict_get body "projectId") h)
      as [r tr].
    cbn [fst snd] in *. destruct Hnone as [-> | ->]; run; by rewrite app_nil_r. }
  cbn [fst snd]. do 2 (split; [done|]).
  pose proof (get_project_files_emits svc env user_id tenant_id
                (dict_get body "projectId") h) as Hq.
  fold lookup in Hq. clearbody lookup.
  induction Hq as [|[c ok] tr Hc _ (IH1 & IH2 & IH3)]; [done|].
  simpl in Hc. destruct c; try done. split; [by constructor|]. by split.
Qed.

(** ** A successful query: the two ledger entries *)

Lemma save_chat_message_run svc env sid user_id tenant_id project_id ty content ts src h table :
  CHAT_HISTORY_TABLE env = Some table ->
  save_chat_message svc env sid user_id tenant_id project_id ty content ts src h =
  let id := sv_uuid svc h in
  let it := chat_item id sid tenant_id user_id project_id ty content ts src in
  let ok := bool_decide (sv_write svc (h ++ [(CUuid id, true)]) (CPut (Some table) it) = None) in
  (Ok ok, [(CUuid id, true); (CPut (Some table) it, ok)]).
Proof.
  intros Htable. unfold save_chat_message. run. rewrite Htable. run.
  cbn [required]. cbv zeta. run. rewrite !app_nil_r. rewrite write_run.
  by destruct (sv_write svc _ _).
Qed.

Lemma save_chat_message_unconfigured svc env sid user_id tenant_id project_id ty content ts src h :
  CHAT_HISTORY_TABLE env = None ->
  save_chat_message svc env sid user_id tenant_id project_id ty content ts src h =
  (Raise (KeyError "CHAT_HISTORY_TABLE"), []).
Proof. intros Htable. unfold save_chat_message. run. rewrite Htable. done. Qed.

Lemma record_turn_ok svc env event user_id tenant_id project_id query file_ids response h resp tr :
  record_turn svc env event user_id tenant_id project_id query file_ids response h
    = (Ok resp, tr) ->
  exists table sid t id1 id2 ok1 ok2,
    t = sv_time svc h
    /\ CHAT_HISTORY_TABLE env = Some table
    /\ resp_sessionId response = Some sid
    /\ resp = create_response event 200
                (BQueryResult query response file_ids project_id tenant_id user_id)
    /\ tr = [ (CTime t, true);
              (CUuid id1, true);
              (CPut (Some table)
                 (chat_item id1 sid tenant_id user_id project_id "user" query t None),
               ok1);
              (CUuid id2, true);
              (CPut (Some table)
                 (chat_item id2 sid tenant_id user_id project_id "ai"
                    (default (VStr EmptyString) (default (∅ : item) (resp_output response) !! "text"))
                    (t + 1) (Some (extract_sources response))),
               ok2) ].
Proof.
  unfold record_turn. cbv zeta. run.
  destruct (resp_sessionId response) as [sid|]; [|done]. cbn [required]. run.
  destruct (CHAT_HISTORY_TABLE env) as [table|] eqn:Htable.
  2: { rewrite save_chat_message_unconfigured by done. by run. }
  rewrite !app_nil_r.
  rewrite (save_chat_message_run _ _ _ _ _ _ _ _ _ _ _ table Htable). cbv zeta. run.
  rewrite (save_chat_message_run _ _ _ _ _ _ _ _ _ _ _ table Htable). cbv zeta. run.
  intros [= <- <-]. eexists table, sid, _, _, _, _, _. repeat split; try done.
Qed.

Lemma query_attempt_error svc env event user_id tenant_id project_id session_id p h err tr :
  query_attempt svc env event user_id tenant_id project_id session_id p h
    = (Ok (inr err), tr) ->
  statusCode err = 500.
Proof.
  unfold query_attempt. rewrite try_except_run, bind_run.
  destruct (perform_retrieve_and_generate svc p h) as [[rs|e] es]; run;
    [|by intros [= <- _]].
  destruct session_id as [| | |old| |]; run; try done.
  destruct (rs.2 && truthy (VStr old)); run; [|done].
  destruct (update_chat_history_session_id _ _ _ _ _ _ _ _) as [[b|e] es2]; run;
    [done|by intros [= <- _]].
Qed.

Lemma handle_query_ok_inv rt svc env event user_id tenant_id h resp tr :
  handle_query rt svc env event user_id tenant_id h = (Ok resp, tr) ->
  statusCode resp = 200 ->
  exists body kb files tr_files response tr_attempt tr_turn,
    py_json_loads rt (event_body event) = Ok (VDict body)
    /\ configured (KNOWLEDGE_BASE_ID env) = Some kb
    /\ get_file_ids svc env tenant_id (requested_project event body) h = (Ok files, tr_files)
    /\ query_attempt svc env event user_id tenant_id
         (requested_project event body) (requested_session event body)
         (build_retrieve_params (dict_get body "query") kb 5
            (kb_filter tenant_id (requested_project event body) files)
            (requested_session event body)) (h ++ tr_files)
       = (Ok (inl response), tr_attempt)
    /\ record_turn svc env event user_id tenant_id (requested_project event body)
         (dict_get body "query") files response (h ++ tr_files ++ tr_attempt)
       = (Ok resp, tr_turn)
    /\ tr = tr_files ++ tr_attempt ++ tr_turn.
Proof.
  unfold handle_query. run.
  destruct (py_json_loads rt (event_body event)) as [parsed|e]; [|done]. run.
  destruct parsed as [| | | | |body]; try done. cbn [as_dict]. run.
  destruct (truthy (dict_get body "query")); cbn [negb]; [|by intros [= <- _]].
  destruct (configured (KNOWLEDGE_BASE_ID env)) as [kb|]; [|by intros [= <- _]].
  fold (requested_project event body). fold (requested_session event body).
  destruct (truthy (requested_project event body)); cbn [negb]; [|by intros [= <- _]].
  cbv zeta. run. rewrite !app_nil_r.
  destruct (get_file_ids svc env tenant_id (requested_project event body) h)
    as [[files|e] tr_files] eqn:Hfiles; [|done].
  cbn [fst snd]. destruct files as [|f fs]; [by intros [= <- _]|].
  rewrite bind_run.
  destruct (query_attempt _ _ _ _ _ _ _ _ _) as [[[response|err]|e] tr_attempt] eqn:Hattempt;
    [| |done].
  2: { run. intros [= <- _] Hst. apply query_attempt_error in Hattempt.
       by rewrite Hattempt in Hst. }
  cbn [fst snd].
  destruct (record_turn _ _ _ _ _ _ _ _ _ _) as [r tr_turn] eqn:Hturn.
  cbn [fst snd]. intros [= -> <-] Hst.
  exists body, kb, (f :: fs), tr_files, response, tr_attempt, tr_turn.
  rewrite <- app_assoc in Hturn. done.
Qed.

Lemma no_put_requests (tr : History) table :
  Forall (fun ev : Call * bool => match ev.1 with CPut _ _ => False | _ => True end) tr ->
  put_requests table tr = [] /\ stored table tr = [].
Proof.
  unfold stored. induction 1 as [|[c ok] tr Hc _ [IH1 IH2]]; [done|].
  simpl in Hc. destruct c; try done; unfold put_requests in *; simpl;
    (split; [done|]); rewrite filter_cons; destruct (decide _); simpl; done.
Qed.

Lemma chat_item_fields id sid tenant_id user_id project_id ty content ts src :
  let it := chat_item id sid tenant_id user_id project_id ty content ts src in
  it !! "id" = Some (VStr id)
  /\ it !! "sessionId" = Some (VStr sid)
  /\ it !! "tenantId" = Some (VStr tenant_id)
  /\ it !! "userId" = Some (VStr user_id)
  /\ it !! "projectId" = Some project_id
  /\ it !! "type" = Some (VStr ty)
  /\ it !! "content" = Some content
  /\ it !! "timestamp" = Some (VInt ts)
  /\ it !! "sources" = match src with
                       | Some (s :: ss) => Some (VList (s :: ss))
                       | _ => None
                       end.
Proof.
  unfold chat_item. destruct src as [[|s ss]|]; cbv zeta;
    repeat split; by simplify_map_eq.
Qed.

Lemma timestamp_of_chat_item id sid tenant_id user_id project_id ty content ts src :
  timestamp_of (chat_item id sid tenant_id user_id project_id ty content ts src) = ts.
Proof.
  unfold timestamp_of.
  by destruct (chat_item_fields id sid tenant_id user_id project_id ty content ts src)
    as (_ & _ & _ & _ & _ & _ & _ & -> & _).
Qed.

(** C6, as the code has it.  Every query answered 200 requests exactly two
    appends to the ledger, in this order: a [user] entry with the query text
    and an [ai] entry with the generated answer text and, when there are
    any, the extracted sources.  Both carry the session id of the response,
    and the timestamp of the [ai] entry is that of the [user] entry plus
    one.  The appends are best effort: the entries stored are those of the
    two whose write the ledger accepted, and both when it accepted both. *)
Theorem handle_query_records_turn rt svc env event user_id tenant_id h resp tr :
  handle_query rt svc env event user_id tenant_id h = (Ok resp, tr) ->
  statusCode resp = 200 ->
  exists table req results files sid t id_user id_ai,
    let project_id := requested_project event req in
    let query := dict_get req "query" in
    let answer := default (VStr EmptyString) (default (∅ : item) (resp_output results) !! "text") in
    let sources := extract_sources results in
    let user_entry :=
      chat_item id_user sid tenant_id user_id project_id "user" query t None in
    let ai_entry :=
      chat_item id_ai sid tenant_id user_id project_id "ai" answer (t + 1) (Some sources) in
    CHAT_HISTORY_TABLE env = Some table
    /\ py_json_loads rt (event_body event) = Ok (VDict req)
    /\ body resp = BQueryResult query results files project_id tenant_id user_id
    /\ resp_sessionId results = Some sid
    /\ time_readings tr = [t]
    /\ put_requests (Some table) tr = [user_entry; ai_entry]
    /\ stored (Some table) tr `sublist_of` [user_entry; ai_entry]
    /\ (puts_accepted (Some table) tr -> stored (Some table) tr = [user_entry; ai_entry])
    /\ user_entry !! "type" = Some (VStr "user")
    /\ user_entry !! "content" = Some query
    /\ user_entry !! "sessionId" = Some (VStr sid)
    /\ user_entry !! "sources" = None
    /\ ai_entry !! "type" = Some (VStr "ai")
    /\ ai_entry !! "content" = Some answer
    /\ ai_entry !! "sessionId" = Some (VStr sid)
    /\ ai_entry !! "sources" = match sources with
                               | [] => None
                               | _ :: _ => Some (VList sources)
                               end
    /\ timestamp_of user_entry = t
    /\ timestamp_of ai_entry = t + 1
    /\ timestamp_of user_entry < timestamp_of ai_entry.
Proof.
  intros Hrun Hst.
  apply handle_query_ok_inv in Hrun
    as (req & kb & files & tr_files & results & tr_attempt & tr_turn
        & Hreq & Hkb & Hfiles & Hattempt & Hturn & ->); [|done].
  apply record_turn_ok in Hturn
    as (table & sid & t & id1 & id2 & ok1 & ok2 & _ & Htable & Hsid & -> & ->).
  pose proof (get_file_ids_emits svc env tenant_id (requested_project event req) h) as Hq.
  rewrite Hfiles in Hq. cbn [snd] in Hq.
  pose proof (query_attempt_emits svc env event user_id tenant_id
                (requested_project event req) (requested_session event req)
                (build_retrieve_params (dict_get req "query") kb 5
                   (kb_filter tenant_id (requested_project event req) files)
                   (requested_session event req)) (h ++ tr_files)) as Ha.
  rewrite Hattempt in Ha. cbn [snd] in Ha.
  assert (put_requests (Some table) tr_files = [] /\ stored (Some table) tr_files = [])
    as [Hp1 Hs1].
  { apply no_put_requests. eapply Forall_impl; [apply Hq|]. by intros [[] ?]. }
  assert (put_requests (Some table) tr_attempt = [] /\ stored (Some table) tr_attempt = [])
    as [Hp2 Hs2].
  { apply no_put_requests. eapply Forall_impl; [apply Ha|]. by intros [[] ?]. }
  assert (time_readings tr_files = []) as Ht1.
  { clear -Hq. induction Hq as [|[[] ?] ? ? ? IH]; done. }
  assert (time_readings tr_attempt = []) as Ht2.
  { clear -Ha. induction Ha as [|[[] ?] ? ? ? IH]; done. }
  exists table, req, results, files, sid, t, id1, id2. cbv zeta.
  set (user_entry := chat_item id1 _ _ _ _ "user" _ _ _).
  set (ai_entry := chat_item id2 _ _ _ _ "ai" _ _ _).
  do 4 (split; [done|]).
  rewrite !time_readings_app, !put_requests_app, !stored_app, Hp1, Hp2, Hs1, Hs2, Ht1, Ht2.
  cbn [app].
  change [(CTime t, true); (CUuid id1, true); (CPut (Some table) user_entry, ok1);
          (CUuid id2, true); (CPut (Some table) ai_entry, ok2)]
    with ([(CTime t, true); (CUuid id1, true)] ++ [(CPut (Some table) user_entry, ok1)]
          ++ [(CUuid id2, true)] ++ [(CPut (Some table) ai_entry, ok2)]).
  split; [done|].
  split. { by rewrite !put_requests_app, !put_requests_one. }
  split.
  { rewrite !stored_app.
    change (stored (Some table) [(CTime t, true); (CUuid id1, true)]) with (@nil item).
    change (stored (Some table) [(CUuid id2, true)]) with (@nil item).
    destruct ok1, ok2; rewrite ?stored_one, ?stored_one_rejected; cbn [app].
    - done.
    - apply sublist_skip, sublist_nil_l.
    - apply sublist_cons. done.
    - apply sublist_nil_l. }
  split.
  { intros Hacc.
    assert (ok1 = true) as ->.
    { apply (Hacc user_entry). rewrite !elem_of_app. right. right. right. left. left. }
    assert (ok2 = true) as ->.
    { apply (Hacc ai_entry). rewrite !elem_of_app. do 5 right. left. }
    rewrite !stored_app, !stored_one. done. }
  subst user_entry ai_entry.
  rewrite !timestamp_of_chat_item.
  repeat match goal with
         | |- context [chat_item ?a ?b ?c ?d ?e ?f ?g ?i ?j] =>
             let H := fresh in
             pose proof (chat_item_fields a b c d e f g i j) as H; cbv zeta in H;
             destruct H as (? & ? & ? & ? & ? & ? & ? & ? & ?);
             generalize dependent (chat_item a b c d e f g i j); intros
         end.
  repeat split; try done; try lia.
  destruct (extract_sources results); done.
Qed.

(** ** Re-keying the history after a recovery *)

Lemma handle_query_emits rt svc env event user_id tenant_id :
  emits (fun ev => match ev.1 with
                   | CQuery _ _ _ _ _ | CRetrieve _ | CPut _ _ | CTime _ | CUuid _ => True
                   | _ => False
                   end)
        (handle_query rt svc env event user_id tenant_id).
Proof.
  unfold handle_query.
  repeat first
    [ eapply emits_impl; [|apply get_file_ids_emits]; intros [[] ?]; simpl; done
    | eapply emits_impl; [|apply query_attempt_emits]; intros [[] ?]; simpl; done
    | eapply emits_impl; [|apply record_turn_emits]; intros [[] ?]; simpl; done
    | emits_step ].
Qed.

Lemma batch_requests_none table (tr : History) :
  Forall (fun ev : Call * bool =>
            match ev.1 with CBatchWrite _ _ => False | _ => True end) tr ->
  batch_requests table tr = [].
Proof.
  unfold batch_requests. induction 1 as [|[c ok] tr Hc _ IH]; [done|].
  destruct c; try done.
Qed.

(** ** The properties on the sample deployment *)

Import Sample.

(** A first attempt under the unknown session is retried without it; the
    failure of the sample service is an unknown-session error, and a
    throttling error is not. *)
Example perform_retrieve_and_generate_sample :
  perform_retrieve_and_generate svc first_attempt [] =
    (Ok (answer, true),
     [(CRetrieve first_attempt, false); (CRetrieve (pop_sessionId first_attempt), true)])
  /\ session_not_recognized invalid_session = true
  /\ session_not_recognized throttled = false.
Proof. rewrite perform_run. repeat split; reflexivity. Qed.

Lemma handle_query_scoped_witness :
  (let res := handle_query rt (services no_files whole_history accept_all) env
                (query_event body_text) "u1" "t1" [] in
   res = (Ok (create_response (query_event body_text) 404
                (BError "No files found for this project")), [files_query])
   /\ retrieve_calls [files_query] = [])
  /\
  (let res := handle_query rt svc env (query_event body_text) "u1" "t1" [] in
   exists p ok rest,
     res.2 = [files_query] ++ (CRetrieve p, ok) :: rest /\
     rp_filter p = FAndAll [ FEquals "tenantId" (VStr "t1");
                             FEquals "projectId" (VStr "p1");
                             FIn "fileId" [VStr "f1"] ]).
Proof.
  split.
  - apply (proj2 (handle_query_scoped rt (services no_files whole_history accept_all) env
                    (query_event body_text) "u1" "t1" [])
             (request_dict None) [] [files_query]);
      [reflexivity | reflexivity | by eexists | reflexivity | reflexivity].
  - apply (proj2 (handle_query_scoped rt svc env (query_event body_text) "u1" "t1" [])
             (request_dict None) [VStr "f1"] [files_query]);
      [reflexivity | reflexivity | by eexists | reflexivity | reflexivity].
Defined.

(** C3, as the code has it.  [update_chat_history_session_id] obtains the
    history from [get_chat_history_by_tenant_user], which fails at the
    lookup of [dynamodb.conditions] and returns the empty list: the function
    finds no message to update and returns without a request to the store,
    and no run of [handle_query] sends a batch write.  In the sample
    deployment a query under the unknown session [s-old] is recovered and
    answered 200 under the new session [s-new], while the entry [msg_old] of
    the ledger, filed under [s-old], is neither read nor rewritten. *)
Theorem recovered_query_rekeys_nothing :
  (forall svc' env' user_id tenant_id results_id old new h,
     (update_chat_history_session_id svc' env' user_id tenant_id results_id old new h).2 = [])
  /\ (forall rt' svc' env' event user_id tenant_id h table,
        batch_requests table (handle_query rt' svc' env' event user_id tenant_id h).2 = [])
  /\ let run := handle_query rt svc env (query_event session_body_text) "u1" "t1" [] in
     let history := pages_all_items
                      (sv_query svc [] "chat-history" "tenantId-userId-index"
                         (user_partition "t1" "u1")) in
     statusCode (outcome run) = 200
     /\ retrieve_calls run.2 = [first_attempt; pop_sessionId first_attempt]
     /\ rp_sessionId first_attempt = Some "s-old"
     /\ (CRetrieve first_attempt, false) ∈ run.2
     /\ (exists query results files project_id,
           body (outcome run) = BQueryResult query results files project_id "t1" "u1"
           /\ resp_sessionId results = Some "s-new")
     /\ history = [msg_old; msg_other]
     /\ in_session "s-old" msg_old
     /\ Forall (fun ev : Call * bool =>
                  match ev.1 with
                  | CQuery table _ _ _ _ => table <> "chat-history"
                  | CBatchWrite _ _ => False
                  | _ => True
                  end) run.2
     /\ batch_requests "chat-history" run.2 = [].
Proof.
  split; [intros; by rewrite update_chat_history_run|].
  split.
  { intros. apply batch_requests_none.
    eapply Forall_impl; [apply handle_query_emits|]. by intros [[] ?]. }
  intros run history.
  assert (run = recovered_run) as -> by (vm_compute; reflexivity).
  split; [reflexivity|]. split; [reflexivity|]. split; [reflexivity|].
  split; [apply list_elem_of_In; right; left; reflexivity|].
  split; [by eexists _, _, _, _|].
  split; [reflexivity|]. split; [reflexivity|].
  split; [|reflexivity].
  repeat (constructor; [done|]). constructor.
Qed.

Lemma ingest_files_records_witness :
  let t0 := sv_time svc [] in
  let ttl := t0 + 1 * 3600 in
  let table := KNOWLEDGE_BASE_FILES_TABLE env in
  exists stamps : list Z,
    length stamps = length [file1]
    /\ time_readings ingest_run.2 = t0 :: stamps
    /\ put_requests table ingest_run.2 =
       zip_with (fun file createdAt =>
                   kb_file_record (dict_get file "id") "u1" "t1" (VStr "p1")
                     createdAt ttl) [file1] stamps
    /\ stored table ingest_run.2 = put_requests table ingest_run.2
    /\ ingest_calls ingest_run.2 =
       map (fun file => kb_document (dict_get file "id") (s3_uri rt file)
                          "u1" "t1" (VStr "p1")) [file1]
    /\ (forall file_id createdAt,
          let record := kb_file_record file_id "u1" "t1" (VStr "p1") createdAt ttl in
          record !! "id" = Some file_id
          /\ record !! "documentStatus" = Some (VStr "ready")
          /\ record !! "createdAt" = Some (VInt createdAt)
          /\ record !! "ttl" = Some (VInt (t0 + 1 * 3600))
          /\ (t0 + 1 * 3600 = createdAt + 1 * 3600 <-> createdAt = t0))
    /\ (forall file_id uri,
          doc_inlineAttributes (kb_document file_id uri "u1" "t1" (VStr "p1")) =
          [ ("userId", VStr "u1"); ("tenantId", VStr "t1");
            ("projectId", VStr "p1"); ("fileId", file_id) ]).
Proof.
  apply (ingest_files_records rt svc env "u1" "t1" (VStr "p1") [file1] [] 1 ingest_run.2).
  - vm_compute. reflexivity.
  - vm_compute. reflexivity.
Defined.

(** C4 fails as stated: the clock has advanced between the reading that
    fixes [ttl] and the reading that fills [createdAt], so the one record of
    this successful run has [ttl = 3700] and [createdAt = 101], and
    [3700 <> 101 + 1 * 3600]. *)
Lemma ttl_is_not_created_at_plus_retention :
  let run := ingest_files rt svc env "u1" "t1" (VStr "p1") [file1] [] in
  let record := kb_file_record (VStr "f1") "u1" "t1" (VStr "p1") 101 3700 in
  run.1 = Ok tt
  /\ files_ttl_hours rt env "t1" = Ok 1
  /\ time_readings run.2 = [100; 101]
  /\ put_requests (Some "kb-files") run.2 = [record]
  /\ stored (Some "kb-files") run.2 = [record]
  /\ record !! "createdAt" = Some (VInt 101)
  /\ record !! "ttl" = Some (VInt 3700)
  /\ ~ (exists createdAt,
          record !! "createdAt" = Some (VInt createdAt)
          /\ record !! "ttl" = Some (VInt (createdAt + 1 * 3600))).
Proof.
  intros run record.
  assert (record !! "createdAt" = Some (VInt 101)) as Hc by reflexivity.
  assert (record !! "ttl" = Some (VInt 3700)) as Ht by reflexivity.
  split; [vm_compute; reflexivity|]. split; [vm_compute; reflexivity|].
  split; [vm_compute; reflexivity|].
  split; [reflexivity|]. split; [reflexivity|].
  do 2 (split; [assumption|]).
  intros (createdAt & Hc' & Ht').
  rewrite Hc in Hc'. rewrite Ht in Ht'. injection Hc' as <-. by injection Ht'.
Qed.

Lemma lambda_handler_isolates_failures_witness :
  let res := lambda_handler (services one_file whole_history reject_f2) env batch [] in
  let expired := omap expired_file_id (default [] (Records batch)) in
  (forall record file_id,
     expired_file_id record = Some file_id <-> system_removal record file_id)
  /\ delete_calls res.2 = expired
  /\ delete_targets res.2 = map (fun _ => ("kb-1", "ds-1")) expired
  /\ length (delete_outcomes res.2) = length expired
  /\ (count_true (delete_outcomes res.2) + count_false (delete_outcomes res.2))%nat
     = length expired
  /\ (res.1 = Ok {| r_statusCode := 200;
                    r_body := RProcessed (count_true (delete_outcomes res.2))
                                         (count_false (delete_outcomes res.2)) |}
      \/ (Records batch = None \/ Records batch = Some [])
         /\ res = (Ok {| r_statusCode := 200; r_body := RNoRecords |}, [])).
Proof.
  apply (lambda_handler_isolates_failures (services one_file whole_history reject_f2)
           env batch [] "kb-1" "ds-1"); [reflexivity | reflexivity | by eexists].
Defined.

(** In the sample batch the expiries of [f2] and [f1] are the system-initiated
    removals; the deletion of [f2] fails and that of [f1] is still made; the
    removal by a caller and the insertion cause no call. *)
Example lambda_handler_sample :
  let res := lambda_handler (services one_file whole_history reject_f2) env batch [] in
  omap expired_file_id (default [] (Records batch)) = [VStr "f2"; VStr "f1"]
  /\ delete_calls res.2 = [VStr "f2"; VStr "f1"]
  /\ delete_targets res.2 = [("kb-1", "ds-1"); ("kb-1", "ds-1")]
  /\ delete_outcomes res.2 = [false; true]
  /\ res.1 = Ok {| r_statusCode := 200; r_body := RProcessed 1 1 |}.
Proof. vm_compute. done. Qed.

Lemma handle_query_records_turn_witness :
  exists table req results files sid t id_user id_ai,
    let project_id := requested_project (query_event body_text) req in
    let query := dict_get req "query" in
    let answer := default (VStr EmptyString) (default (∅ : item) (resp_output results) !! "text") in
    let sources := extract_sources results in
    let user_entry :=
      chat_item id_user sid "t1" "u1" project_id "user" query t None in
    let ai_entry :=
      chat_item id_ai sid "t1" "u1" project_id "ai" answer (t + 1) (Some sources) in
    CHAT_HISTORY_TABLE env = Some table
    /\ py_json_loads rt (event_body (query_event body_text)) = Ok (VDict req)
    /\ body (outcome plain_run) = BQueryResult query results files project_id "t1" "u1"
    /\ resp_sessionId results = Some sid
    /\ time_readings plain_run.2 = [t]
    /\ put_requests (Some table) plain_run.2 = [user_entry; ai_entry]
    /\ stored (Some table) plain_run.2 `sublist_of` [user_entry; ai_entry]
    /\ (puts_accepted (Some table) plain_run.2 ->
        stored (Some table) plain_run.2 = [user_entry; ai_entry])
    /\ user_entry !! "type" = Some (VStr "user")
    /\ user_entry !! "content" = Some query
    /\ user_entry !! "sessionId" = Some (VStr sid)
    /\ user_entry !! "sources" = None
    /\ ai_entry !! "type" = Some (VStr "ai")
    /\ ai_entry !! "content" = Some answer
    /\ ai_entry !! "sessionId" = Some (VStr sid)
    /\ ai_entry !! "sources" = match sources with
                               | [] => None
                               | _ :: _ => Some (VList sources)
                               end
    /\ timestamp_of user_entry = t
    /\ timestamp_of ai_entry = t + 1
    /\ timestamp_of user_entry < timestamp_of ai_entry.
Proof.
  apply (handle_query_records_turn rt svc env (query_event body_text) "u1" "t1" []
           (outcome plain_run) plain_run.2).
  - vm_compute. reflexivity.
  - reflexivity.
Defined.

(** C6 fails as stated: the ledger rejects both writes, [save_chat_message]
    swallows the two errors, and the query is answered 200 with no entry
    stored. *)
Lemma rejected_appends_leave_no_entries :
  let run := handle_query rt (services one_file whole_history reject_puts) env
               (query_event body_text) "u1" "t1" [] in
  statusCode (outcome run) = 200
  /\ length (put_requests (Some "chat-history") run.2) = 2%nat
  /\ stored (Some "chat-history") run.2 = []
  /\ length (stored (Some "chat-history") run.2) <> 2%nat.
Proof.
  cbv zeta.
  assert (stored (Some "chat-history")
            (handle_query rt (services one_file whole_history reject_puts) env
               (query_event body_text) "u1" "t1" []).2 = []) as Hnone
    by (vm_compute; reflexivity).
  split; [vm_compute; reflexivity|]. split; [vm_compute; reflexivity|].
  split; [exact Hnone|]. by rewrite Hnone.
Qed.

Lemma ingest_files_fails_fast_witness :
  let env' := {| KNOWLEDGE_BASE_ID := Some "kb-1"; DATA_SOURCE_ID := Some "ds-1";
                 PROJECT_FILES_TABLE := Some "project-files";
                 KNOWLEDGE_BASE_FILES_TABLE := Some "kb-files";
                 CHAT_HISTORY_TABLE := Some "chat-history";
                 TENANTS := None |} in
  let res := ingest_files rt svc env' "u1" "t1" (VStr "p1") [file1] [] in
  (exists e, res.1 = Raise e)
  /\ Forall (fun ev => is_mutation ev.1 = false) res.2
  /\ put_requests (KNOWLEDGE_BASE_FILES_TABLE env') res.2 = []
  /\ ingest_calls res.2 = [].
Proof.
  cbv zeta.
  apply (ingest_files_fails_fast rt svc
           {| KNOWLEDGE_BASE_ID := Some "kb-1"; DATA_SOURCE_ID := Some "ds-1";
              PROJECT_FILES_TABLE := Some "project-files";
              KNOWLEDGE_BASE_FILES_TABLE := Some "kb-files";
              CHAT_HISTORY_TABLE := Some "chat-history";
              TENANTS := None |} "u1" "t1" (VStr "p1") [file1] []).
  left. reflexivity.
Defined.

(** A tenant that the configuration does not list fails the batch as well. *)
Example ingest_files_unknown_tenant :
  let res := ingest_files rt svc env "u1" "t9" (VStr "p1") [file1] [] in
  res = (Raise TypeError, [(CTime 100, true)]).
Proof. vm_compute. reflexivity. Qed.

Lemma handler_rejects_project_without_files_witness :
  let svc' := services no_files whole_history accept_all in
  let lookup := get_project_files svc' env "u1" "t1" (dict_get ingest_dict "projectId") [] in
  let res := CheckKnowledgeBaseStatus.handler rt svc' env ingest_event [] in
  res.1 = Ok (create_response ingest_event 400 (BError "Project requires files"))
  /\ res.2 = lookup.2
  /\ Forall (fun ev => is_mutation ev.1 = false) res.2
  /\ put_requests (KNOWLEDGE_BASE_FILES_TABLE env) res.2 = []
  /\ ingest_calls res.2 = [].
Proof.
  apply (handler_rejects_project_without_files rt (services no_files whole_history accept_all)
           env ingest_event [] "u1" "t1" ingest_dict);
    [reflexivity | reflexivity | reflexivity | by eexists | done | reflexivity
    | right; reflexivity].
Defined.

(** C9, as the code has it.  [dynamodb] is the service resource, which has
    the attribute [Table] and no attribute [conditions]: the key condition
    of the first request cannot be built, the [except] clause catches the
    error, and the operation returns the empty list without a request to the
    store, whatever the partition holds.  In the sample deployment the
    partition of [(t1, u1)] holds two entries on two pages, and none of them
    is returned. *)
Theorem retrieve_all_returns_nothing :
  resource_attribute "Table" = Ok tt
  /\ resource_attribute "conditions" = Raise AttributeError
  /\ (forall svc' env' tenant_id user_id h,
        is_Some (CHAT_HISTORY_TABLE env') ->
        get_chat_history_by_tenant_user svc' env' tenant_id user_id h = (Ok [], []))
  /\ let svc' := services one_file paged_history accept_all in
     let partition := pages_all_items
                        (sv_query svc' [] "chat-history" "tenantId-userId-index"
                           (user_partition "t1" "u1")) in
     partition = [msg_old; msg_other]
     /\ timestamp_of msg_old < timestamp_of msg_other
     /\ get_chat_history_by_tenant_user svc' env "t1" "u1" [] = (Ok [], [])
     /\ (get_chat_history_by_tenant_user svc' env "t1" "u1" []).1 <> Ok partition.
Proof.
  split; [reflexivity|]. split; [reflexivity|].
  split.
  { intros svc' env' tenant_id user_id h [table Htable].
    by rewrite get_chat_history_run, Htable. }
  intros svc' partition.
  assert (partition = [msg_old; msg_other]) as -> by reflexivity.
  split; [reflexivity|]. split; [reflexivity|]. split; [reflexivity|]. done.
Qed.

Lemma delete_session_confirms_after_failed_retrieval_witness :
  (exists e, scan_chat_history svc "chat-history" "t1" "u1" [] = (Raise e, []))
  /\ get_chat_history_by_tenant_user svc env "t1" "u1" []
     = try_except (scan_chat_history svc "chat-history" "t1" "u1") (fun _ => ret []) []
  /\ get_chat_history_by_tenant_user svc env "t1" "u1" [] = (Ok [], [])
  /\ (forall h', batch_delete_items svc "chat-history" [] h' = (Ok true, []))
  /\ delete_chat_session svc env "t1" "p1" "u1" [] = (Ok true, [])
  /\ handle_delete_session svc env delete_event "u1" "t1" "p1" []
     = (Ok (create_response delete_event 200
              (BMessage ("Project " +:+ "p1" +:+
                         " chat history deleted successfully"))), []).
Proof.
  apply (delete_session_confirms_after_failed_retrieval svc env delete_event
           "u1" "t1" "p1" [] "chat-history"); [reflexivity | done].
Defined.

(** The ledger of the sample holds two entries of the user, and the history
    endpoint reports none. *)
Example handle_get_session_sample :
  handle_get_session svc env delete_event "u1" "t1" "p1" []
  = (Ok (create_response delete_event 200 (BMessages [] 0)), []).
Proof. reflexivity. Qed.
